(** * A shallow embedding of [FeatureFormatter] (src/featureFormatter.py)

    The formatter is a single mutable Python object; here it is a record
    and every method is a function from the record to the updated record.
    Methods that can raise return a [result] carrying the exception and the
    object's state at the moment of the raise (Python leaves the mutations
    performed before the raise in place). *)

From Stdlib Require Import String Ascii List ZArith Bool Lia Sorted Permutation.
Import ListNotations.
Open Scope Z_scope.
Open Scope string_scope.

(** ** Python string helpers *)

(** [s * n] on a Python string: empty for [n <= 0]. *)
Fixpoint repeat_str (n : nat) (s : string) : string :=
  match n with
  | O => ""
  | S k => s ++ repeat_str k s
  end.

Definition py_mul (s : string) (n : Z) : string := repeat_str (Z.to_nat n) s.

(** [sep.join(items)] *)
Definition py_join (sep : string) (items : list string) : string :=
  String.concat sep items.

(** [s.find(c)] for a one-character needle: index or -1. *)
Fixpoint find_from (c : ascii) (s : string) (i : Z) : Z :=
  match s with
  | EmptyString => -1
  | String d s' => if Ascii.eqb c d then i else find_from c s' (i + 1)
  end.

Definition py_find (s : string) (c : ascii) : Z := find_from c s 0.

(** [c in s] for a one-character [c]. *)
Fixpoint has_char (c : ascii) (s : string) : bool :=
  match s with
  | EmptyString => false
  | String d s' => Ascii.eqb c d || has_char c s'
  end.

(** [len(s)] *)
Definition py_len (s : string) : Z := Z.of_nat (String.length s).

(** ["%d" % n] and ["%s" % n] on an int. *)
Fixpoint digits_aux (fuel : nat) (n : N) (acc : string) : string :=
  match fuel with
  | O => acc
  | S f =>
      let acc' := String (ascii_of_N (48 + N.modulo n 10)) acc in
      if N.eqb (N.div n 10) 0 then acc' else digits_aux f (N.div n 10) acc'
  end.

Definition digits (n : N) : string := digits_aux (S (N.to_nat (N.size n))) n "".

Definition py_str_int (z : Z) : string :=
  if Z.ltb z 0 then "-" ++ digits (Z.abs_N z) else digits (Z.to_N z).

(** ["%s" % x] where [x] is a string or [None]. *)
Definition py_str_opt (o : option string) : string :=
  match o with
  | Some s => s
  | None => "None"
  end.

(** Truthiness of an optional string argument ([None] and [""] are false). *)
Definition py_truthy (o : option string) : bool :=
  match o with
  | Some s => negb (String.eqb s "")
  | None => false
  end.

(** [s[-1]] on a list of strings: [None] is the [IndexError]. *)
Fixpoint py_last (l : list string) : option string :=
  match l with
  | [] => None
  | [x] => Some x
  | _ :: r => py_last r
  end.

(** [l[-1] = s] on a non-empty list. *)
Definition set_last (l : list string) (s : string) : list string :=
  app (removelast l) [s].

(** [list.sort()] on strings: byte-wise lexicographic order. *)
Fixpoint insert_sorted (x : string) (l : list string) : list string :=
  match l with
  | [] => [x]
  | y :: r => if String.leb x y then x :: y :: r else y :: insert_sorted x r
  end.

Fixpoint py_sort (l : list string) : list string :=
  match l with
  | [] => []
  | x :: r => insert_sorted x (py_sort r)
  end.

(** [os.path.join(a, b)] (posixpath). *)
Definition starts_slash (s : string) : bool :=
  match s with
  | String c _ => Ascii.eqb c "/"
  | EmptyString => false
  end.

Definition ends_slash (s : string) : bool :=
  match String.get (String.length s - 1) s with
  | Some c => Ascii.eqb c "/"
  | None => false
  end.

Definition os_path_join (a b : string) : string :=
  if starts_slash b then b
  else if String.eqb a "" || ends_slash a then a ++ b
  else a ++ "/" ++ b.

(** ** The formatter object *)

(** [self.flags = {}] is never read or written again and is left out. *)
Record FeatureFormatter := mkFF {
  dirName : string;
  verbose : bool;
  featurePrefix : string;
  includeTimeStamp : bool;
  indentLevel : Z;
  indentSpace : string;
  lines : list string;
  header : list string;
  featureNames : list string;
  structure : list string;
  currentFeature : option string;
  currentLookup : option string;
  currentTableName : option string
}.

Definition set_indentLevel (z : Z) (f : FeatureFormatter) : FeatureFormatter :=
  mkFF f.(dirName) f.(verbose) f.(featurePrefix) f.(includeTimeStamp) z
       f.(indentSpace) f.(lines) f.(header) f.(featureNames) f.(structure)
       f.(currentFeature) f.(currentLookup) f.(currentTableName).

Definition set_lines (l : list string) (f : FeatureFormatter) : FeatureFormatter :=
  mkFF f.(dirName) f.(verbose) f.(featurePrefix) f.(includeTimeStamp)
       f.(indentLevel) f.(indentSpace) l f.(header) f.(featureNames)
       f.(structure) f.(currentFeature) f.(currentLookup) f.(currentTableName).

Definition set_featureNames (l : list string) (f : FeatureFormatter) : FeatureFormatter :=
  mkFF f.(dirName) f.(verbose) f.(featurePrefix) f.(includeTimeStamp)
       f.(indentLevel) f.(indentSpace) f.(lines) f.(header) l
       f.(structure) f.(currentFeature) f.(currentLookup) f.(currentTableName).

Definition set_structure (l : list string) (f : FeatureFormatter) : FeatureFormatter :=
  mkFF f.(dirName) f.(verbose) f.(featurePrefix) f.(includeTimeStamp)
       f.(indentLevel) f.(indentSpace) f.(lines) f.(header) f.(featureNames)
       l f.(currentFeature) f.(currentLookup) f.(currentTableName).

Definition set_currentFeature (o : option string) (f : FeatureFormatter) : FeatureFormatter :=
  mkFF f.(dirName) f.(verbose) f.(featurePrefix) f.(includeTimeStamp)
       f.(indentLevel) f.(indentSpace) f.(lines) f.(header) f.(featureNames)
       f.(structure) o f.(currentLookup) f.(currentTableName).

Definition set_currentLookup (o : option string) (f : FeatureFormatter) : FeatureFormatter :=
  mkFF f.(dirName) f.(verbose) f.(featurePrefix) f.(includeTimeStamp)
       f.(indentLevel) f.(indentSpace) f.(lines) f.(header) f.(featureNames)
       f.(structure) f.(currentFeature) o f.(currentTableName).

Definition set_currentTableName (o : option string) (f : FeatureFormatter) : FeatureFormatter :=
  mkFF f.(dirName) f.(verbose) f.(featurePrefix) f.(includeTimeStamp)
       f.(indentLevel) f.(indentSpace) f.(lines) f.(header) f.(featureNames)
       f.(structure) f.(currentFeature) f.(currentLookup) o.

(** Exceptions the methods can raise, and the outcome of a raising method. *)
Inductive exn := IndexError | NameError | TypeError.

Inductive result :=
| Ok (f : FeatureFormatter)
| Raise (e : exn) (f : FeatureFormatter).

(** The indentation prefix of the current level: [indentLevel*indentSpace]. *)
Definition prefix (f : FeatureFormatter) : string := py_mul f.(indentSpace) f.(indentLevel).

Definition indent (steps : Z) (f : FeatureFormatter) : FeatureFormatter :=
  set_indentLevel (f.(indentLevel) + steps) f.

Definition dedent (steps : Z) (f : FeatureFormatter) : FeatureFormatter :=
  let f := set_indentLevel (f.(indentLevel) - steps) f in
  set_indentLevel (Z.max f.(indentLevel) 0) f.

Definition addLine (args : list string) (f : FeatureFormatter) : FeatureFormatter :=
  set_lines (app f.(lines) [prefix f ++ py_join " " args]) f.

Definition addStructure (tags : list string) (f : FeatureFormatter) : FeatureFormatter :=
  fold_left (fun f tag => set_structure (app f.(structure) [prefix f ++ tag]) f) tags f.

(** [FeatureFormatter(dirName, featurePrefix, startIndent, includeTimeStamp,
    indentSpace, verbose)] *)
Definition init (dirName featurePrefix : string) (startIndent : Z)
    (includeTimeStamp : bool) (indentSpace : string) (verbose : bool)
    : FeatureFormatter :=
  indent startIndent
    (mkFF dirName verbose featurePrefix includeTimeStamp 0 indentSpace
          [] [] [] [] None None None).

(** The constructor with its default arguments. *)
Definition init_default (dirName : string) : FeatureFormatter :=
  init dirName "AT" 1 true "    " false.

Definition startFeature (name : string) (f : FeatureFormatter) : FeatureFormatter :=
  let f := addStructure ["feature " ++ name ++ " {"] f in
  let f := addLine ["feature " ++ name ++ " {"] f in
  let f := set_currentFeature (Some name) f in
  let f := set_featureNames (app f.(featureNames) [name]) f in
  indent 1 f.

Definition endFeature (f : FeatureFormatter) : FeatureFormatter :=
  let f := dedent 1 f in
  let f := addLine ["} " ++ py_str_opt f.(currentFeature) ++ ";"] f in
  let f := addStructure ["} " ++ py_str_opt f.(currentFeature) ++ ";"] f in
  set_currentFeature None f.

Definition startLookup (name : string) (f : FeatureFormatter) : FeatureFormatter :=
  let f := addStructure ["lookup " ++ name] f in
  let f := addLine ["lookup " ++ name ++ " {"] f in
  let f := set_currentLookup (Some name) f in
  indent 1 f.

Definition endLookup (f : FeatureFormatter) : FeatureFormatter :=
  let f := dedent 1 f in
  let f := addLine ["} " ++ py_str_opt f.(currentLookup) ++ ";"] f in
  set_currentLookup None f.

Definition comment (args : list string) (f : FeatureFormatter) : FeatureFormatter :=
  fold_left (fun f commentLine => addLine ["# " ++ commentLine] f) args f.

Definition title (args : list string) (f : FeatureFormatter) : FeatureFormatter :=
  let f := addStructure ["'" ++ py_join " " args ++ "'"] f in
  let f := addLine [] f in
  let f := addLine [] f in
  let f := comment [repeat_str 50 "-"] f in
  let f := fold_left (fun f a => comment [f.(indentSpace) ++ a] f) args f in
  comment [repeat_str 50 "-"] f.

(** [lastLineIsComment()]: [None] is the [IndexError] of [self.lines[-1]].
    (The diagnostic [print] goes to stdout and is not modelled.) *)
Definition lastLineIsComment (f : FeatureFormatter) : option bool :=
  match py_last f.(lines) with
  | None => None
  | Some l => Some (negb (Z.eqb (py_find l "#") (-1)))
  end.

Definition addLastLine (text : string) (f : FeatureFormatter) : result :=
  match lastLineIsComment f with
  | None => Raise IndexError f
  | Some false =>
      match py_last f.(lines) with
      | Some l => Ok (set_lines (set_last f.(lines) (l ++ text)) f)
      | None => Raise IndexError f
      end
  | Some true => Ok (addLine [text] f)
  end.

(** [groupName[1:]] when [groupName[0]=='@'], else [groupName]. *)
Definition strip_class_marker (g : string) : string :=
  match g with
  | String c r => if Ascii.eqb c "@" then r else g
  | EmptyString => g
  end.

Definition _addSmallGroup (glyphNames : list string) (groupName : option string)
    (f : FeatureFormatter) : result :=
  let f :=
    if py_truthy groupName then
      let n := strip_class_marker (py_str_opt groupName) in
      addLine ["@" ++ n ++ " = [ " ++ py_join " " glyphNames ++ " ]"] f
    else addLine ["[ " ++ py_join " " glyphNames ++ " ]"] f in
  if py_truthy groupName then addLastLine ";" f else Ok f.

(** The wrapping loop of [addGroup] ("extended mode").  It only appends to
    [self.lines], through [addLine] and [comment], at an indent level it does
    not change; it is written as the list of those appends, in order. *)
Inductive emit :=
| EmitLine (names : list string)     (* self.addLine(" ".join(line)) *)
| EmitLineNo (k : Z).                (* self.comment("line %d"%lines) *)

(** [group_loop lineLength parts c lines line]: the [for n in parts] loop
    from the loop state [(c, lines, line)], followed by the final
    [if line: self.addLine(" ".join(line))]. *)
Fixpoint group_loop (lineLength : Z) (parts : list string) (c nlines : Z)
    (line : list string) : list emit :=
  match parts with
  | [] => match line with [] => [] | _ => [EmitLine line] end
  | n :: rest =>
      if Z.gtb c lineLength then
        let nlines' := nlines + 1 in
        EmitLine line
          :: app (if Z.eqb (Z.modulo nlines' 10) 0 then [EmitLineNo nlines'] else [])
                 (group_loop lineLength rest 0 nlines' (app [] [n]))
      else group_loop lineLength rest (c + (py_len n + 1)) nlines (app line [n])
  end.

Definition apply_emit (f : FeatureFormatter) (e : emit) : FeatureFormatter :=
  match e with
  | EmitLine l => addLine [py_join " " l] f
  | EmitLineNo k => comment ["line " ++ py_str_int k] f
  end.

(** [addGroup(glyphNames, groupName=None, lineLength=50, sort=False,
    lineNumbers=True, comment=False)].  As in the source, [lineNumbers] and
    [comment] are accepted and never read.  [parts.sort()] sorts the caller's
    list in place; only the sorted order used here is modelled. *)
Definition addGroup (glyphNames : list string) (groupName : option string)
    (lineLength : Z) (sort lineNumbers comment_ : bool)
    (f : FeatureFormatter) : result :=
  if Nat.ltb (List.length glyphNames) 5 then _addSmallGroup glyphNames groupName f
  else
    let parts := glyphNames in
    let f :=
      if py_truthy groupName then
        addLine ["@" ++ strip_class_marker (py_str_opt groupName) ++ " = ["] f
      else addLine ["["] f in
    let f := indent 1 f in
    let f := comment ["total " ++ py_str_int (Z.of_nat (List.length parts)) ++ " names"] f in
    let parts := if sort then py_sort parts else parts in
    let f := fold_left apply_emit (group_loop lineLength parts 0 0 []) f in
    let f := dedent 1 f in
    Ok (if py_truthy groupName then addLine ["];"] f else addLine ["]"] f).

(** [include(fileName)]; [path_exists] is [os.path.exists] on the file
    system.  Python 2's [os.path.exists] only catches [os.error]: for a path
    holding a NUL byte, [os.stat] raises [TypeError], which escapes
    [include] after the include line has been appended. *)
Definition include (path_exists : string -> bool) (fileName : string)
    (f : FeatureFormatter) : result :=
  let path := os_path_join f.(dirName) fileName in
  let f := addLine ["include(" ++ fileName ++ ");"] f in
  if has_char "000" path then Raise TypeError f
  else if negb (path_exists path) then Ok (comment ["Note: missing file at"; path] f)
  else Ok f.

(** Python values bound to names, and name resolution (locals, then module
    globals; no builtin is involved here). *)
Inductive pyval :=
| VStr (s : string)
| VPos (p : option (Z * Z))
| VObj (what : string).

Definition py_str (v : pyval) : string :=
  match v with
  | VStr s => s
  | VPos None => "None"
  | VPos (Some (x, y)) => "(" ++ py_str_int x ++ ", " ++ py_str_int y ++ ")"
  | VObj w => w
  end.

Fixpoint lookup_name (env : list (string * pyval)) (x : string) : option pyval :=
  match env with
  | [] => None
  | (y, v) :: r => if String.eqb x y then Some v else lookup_name r x
  end.

(** The names bound at module level in featureFormatter.py. *)
Definition module_globals : list (string * pyval) :=
  [("sys", VObj "<module 'sys'>"); ("os", VObj "<module 'os'>");
   ("strftime", VObj "<built-in function strftime>");
   ("localtime", VObj "<built-in function localtime>");
   ("FeatureFormatter", VObj "<class 'FeatureFormatter'>")].

Definition resolve (locals : list (string * pyval)) (x : string) : option pyval :=
  match lookup_name locals x with
  | Some v => Some v
  | None => lookup_name module_globals x
  end.

Definition positionBaseMark (name : string) (pos : option (Z * Z)) (className : string)
    (f : FeatureFormatter) : result :=
  let locals := [("self", VObj "<FeatureFormatter object>"); ("name", VStr name);
                 ("pos", VPos pos); ("className", VStr className)] in
  match resolve locals "ligatureName" with
  | None => Raise NameError f
  | Some v => Ok (addLine ["position base " ++ py_str v ++ " "] f)
  end.

Definition endMarks (f : FeatureFormatter) : result :=
  let f := dedent 1 f in
  match lastLineIsComment f with
  | None => Raise IndexError f
  | Some false =>
      match py_last f.(lines) with
      | Some l => Ok (set_lines (set_last f.(lines) (l ++ ";")) f)
      | None => Raise IndexError f
      end
  | Some true => Ok (addLine [";"] f)
  end.

Definition startTable (name : string) (f : FeatureFormatter) : FeatureFormatter :=
  let f := addLine ["table " ++ name ++ " {"] f in
  let f := indent 1 f in
  set_currentTableName (Some name) f.

Definition endTable (f : FeatureFormatter) : FeatureFormatter :=
  let f := dedent 1 f in
  let f := addLine ["} " ++ py_str_opt f.(currentTableName) ++ ";"] f in
  set_currentTableName None f.

(** The names of the body lines of a wrapped group, and the text of each
    appended line. *)
Definition chunks (es : list emit) : list (list string) :=
  flat_map (fun e => match e with EmitLine l => [l] | EmitLineNo _ => [] end) es.

Definition emit_text (e : emit) : string :=
  match e with
  | EmitLine l => py_join " " l
  | EmitLineNo k => "# line " ++ py_str_int k
  end.

(** The count [addGroup] keeps for a line: [len(n)+1] per name. *)
Definition weight (l : list string) : Z :=
  fold_right (fun n acc => py_len n + 1 + acc) 0 l.

(** The wrapping rule in the words of the spec: append names to the current
    line until adding the next name's [len+1] would exceed the budget, then
    flush the line and start a new one with that name. *)
Fixpoint spec_greedy_aux (budget : Z) (names : list string) (c : Z)
    (line : list string) : list (list string) :=
  match names with
  | [] => match line with [] => [] | _ => [line] end
  | n :: rest =>
      match line with
      | [] => spec_greedy_aux budget rest (py_len n + 1) [n]
      | _ =>
          if Z.gtb (c + (py_len n + 1)) budget
          then line :: spec_greedy_aux budget rest (py_len n + 1) [n]
          else spec_greedy_aux budget rest (c + (py_len n + 1)) (app line [n])
      end
  end.

Definition spec_greedy_wrap (budget : Z) (names : list string) : list (list string) :=
  spec_greedy_aux budget names 0 [].

(** ** The remaining methods of [FeatureFormatter] *)

(** ["%<w>d" % z]: right-justified in a field of at least [w] characters. *)
Definition pad_left (w : nat) (s : string) : string :=
  repeat_str (w - String.length s) " " ++ s.

Definition py_fmt_d (w : nat) (z : Z) : string := pad_left w (py_str_int z).

Definition languageSystem (name code : option string) (f : FeatureFormatter) : FeatureFormatter :=
  let name := match name with None => "DFLT" | Some n => n end in
  let code := match code with None => "dflt" | Some c => c end in
  addLine ["languagesystem " ++ name ++ " " ++ code ++ ";"] f.

Definition lookupFlag (flags : list string) (f : FeatureFormatter) : FeatureFormatter :=
  addLine ["lookupflag " ++ py_join " " flags ++ ";"] f.

(** [anchor(pos)] with integer coordinates. *)
Definition anchor (pos : option (Z * Z)) : string :=
  match pos with
  | None => "<anchor NULL>"
  | Some (x, y) => "<anchor " ++ py_fmt_d 5 x ++ " " ++ py_fmt_d 5 y ++ ">"
  end.

Definition markClass (glyphName : string) (pos : option (Z * Z)) (className : string)
    (f : FeatureFormatter) : FeatureFormatter :=
  addLine ["markClass " ++ glyphName ++ " " ++ anchor pos ++ " " ++ className ++ ";"] f.

Definition positionMark (glyphName : string) (pos : option (Z * Z)) (className : string)
    (f : FeatureFormatter) : FeatureFormatter :=
  addLine ["position mark " ++ glyphName ++ " " ++ anchor pos ++ " mark " ++ className ++ ";"] f.

Definition startLigatureMarks (ligatureName : string) (f : FeatureFormatter) : FeatureFormatter :=
  let f := addLine ["position ligature " ++ ligatureName] f in
  indent 1 f.

(** The [enable] flag: [prefix="#"] comments the line out. *)
Definition enable_prefix (enable : bool) : string := if enable then "" else "#".

Definition startBaseMarks (ligatureName : string) (enable : bool) (f : FeatureFormatter)
    : FeatureFormatter :=
  let f := addLine [enable_prefix enable ++ "position base " ++ ligatureName] f in
  indent 1 f.

Definition anchorBasePosition (pos : option (Z * Z)) (className : string) (enable : bool)
    (f : FeatureFormatter) : FeatureFormatter :=
  addLine [enable_prefix enable ++ anchor pos ++ " mark " ++ className] f.

Definition kern (firstName secondName : string) (value : Z) (f : FeatureFormatter)
    : FeatureFormatter :=
  addLine ["pos " ++ firstName ++ " " ++ secondName ++ " <" ++ py_fmt_d 4 value ++ " 0 "
           ++ py_fmt_d 4 value ++ " 0>;"] f.

Definition ligatureFlagComponent (f : FeatureFormatter) : FeatureFormatter :=
  let f := dedent 1 f in
  let f := addLine ["ligComponent"] f in
  indent 1 f.

(** ** Method calls on a formatter *)

(** One constructor per method of [FeatureFormatter] that can change its
    state or raise.  [anchor] is a pure helper and [dump] and [save] only read
    the state; they are modelled above. *)
Inductive call :=
| CIndent (steps : Z)
| CDedent (steps : Z)
| CStartFeature (name : string)
| CEndFeature
| CStartLookup (name : string)
| CEndLookup
| CStartTable (name : string)
| CEndTable
| CAddLine (args : list string)
| CComment (args : list string)
| CTitle (args : list string)
| CAddLastLine (text : string)
| CAddGroup (glyphNames : list string) (groupName : option string)
            (lineLength : Z) (sort lineNumbers comment_ : bool)
| CInclude (fileName : string)
| CPositionBaseMark (name : string) (pos : option (Z * Z)) (className : string)
| CEndMarks
| CAddStructure (tags : list string)
| CLanguageSystem (name code : option string)
| CLookupFlag (flags : list string)
| CMarkClass (glyphName : string) (pos : option (Z * Z)) (className : string)
| CPositionMark (glyphName : string) (pos : option (Z * Z)) (className : string)
| CStartLigatureMarks (ligatureName : string)
| CStartBaseMarks (ligatureName : string) (enable : bool)
| CAnchorBasePosition (pos : option (Z * Z)) (className : string) (enable : bool)
| CKern (firstName secondName : string) (value : Z)
| CLigatureFlagComponent
| CLastLineIsComment
| C_addSmallGroup (glyphNames : list string) (groupName : option string).

Definition exec (path_exists : string -> bool) (c : call) (f : FeatureFormatter) : result :=
  match c with
  | CIndent k => Ok (indent k f)
  | CDedent k => Ok (dedent k f)
  | CStartFeature n => Ok (startFeature n f)
  | CEndFeature => Ok (endFeature f)
  | CStartLookup n => Ok (startLookup n f)
  | CEndLookup => Ok (endLookup f)
  | CStartTable n => Ok (startTable n f)
  | CEndTable => Ok (endTable f)
  | CAddLine a => Ok (addLine a f)
  | CComment a => Ok (comment a f)
  | CTitle a => Ok (title a f)
  | CAddLastLine t => addLastLine t f
  | CAddGroup g n l s ln cm => addGroup g n l s ln cm f
  | CInclude n => include path_exists n f
  | CPositionBaseMark n p cl => positionBaseMark n p cl f
  | CEndMarks => endMarks f
  | CAddStructure t => Ok (addStructure t f)
  | CLanguageSystem n c => Ok (languageSystem n c f)
  | CLookupFlag fl => Ok (lookupFlag fl f)
  | CMarkClass g p cl => Ok (markClass g p cl f)
  | CPositionMark g p cl => Ok (positionMark g p cl f)
  | CStartLigatureMarks n => Ok (startLigatureMarks n f)
  | CStartBaseMarks n e => Ok (startBaseMarks n e f)
  | CAnchorBasePosition p cl e => Ok (anchorBasePosition p cl e f)
  | CKern a b v => Ok (kern a b v f)
  | CLigatureFlagComponent => Ok (ligatureFlagComponent f)
  | CLastLineIsComment =>
      match lastLineIsComment f with
      | None => Raise IndexError f
      | Some _ => Ok f
      end
  | C_addSmallGroup g n => _addSmallGroup g n f
  end.

(** A sequence of calls; an exception stops it. *)
Fixpoint run (path_exists : string -> bool) (cs : list call) (f : FeatureFormatter) : result :=
  match cs with
  | [] => Ok f
  | c :: r =>
      match exec path_exists c f with
      | Ok f' => run path_exists r f'
      | Raise e f' => Raise e f'
      end
  end.

(** [dump()]; [stamp] is the text of
    [strftime("# timestamp %a, %d %b %Y %H:%M:%S", localtime())]. *)
Definition dump (stamp : string) (f : FeatureFormatter) : string :=
  py_join (String "010" "")
    (app ["# file structure:"]
      (app (map (fun line => "# " ++ f.(indentSpace) ++ line) f.(structure))
        (app (if f.(includeTimeStamp) then [""; stamp] else []) f.(lines)))).

(** [save(optionalFileTitle)]: the path returned and the text written to it
    (the write itself, and the [verbose] print, are not modelled). *)
Definition save (stamp : string) (optionalFileTitle : option string) (f : FeatureFormatter)
    : string * string :=
  let title := if py_truthy optionalFileTitle then py_str_opt optionalFileTitle
               else py_join "_" f.(featureNames) in
  let fileName := "feature_" ++ f.(featurePrefix) ++ "_" ++ title ++ ".fea" in
  let feaPath := os_path_join f.(dirName) fileName in
  (feaPath, dump stamp f).

(** Reading a text back line by line ([text.split("\n")]). *)
Fixpoint split_nl_aux (s cur : string) : list string :=
  match s with
  | EmptyString => [cur]
  | String c r =>
      if Ascii.eqb c "010" then cur :: split_nl_aux r "" else split_nl_aux r (cur ++ String c "")
  end.

Definition split_nl (s : string) : list string := split_nl_aux s "".

(** The features a sequence of calls opens, in order. *)
Definition started_features (cs : list call) : list string :=
  flat_map (fun c => match c with CStartFeature n => [n] | _ => [] end) cs.

(** Calls that write lines (or outline entries) without opening or closing
    anything, in a formatter whose [dirName] is [dir]; an [include] counts
    when its joined path holds no NUL byte. *)
Definition flat_call (dir : string) (c : call) : Prop :=
  match c with
  | CAddLine _ | CComment _ | CTitle _ | CAddGroup _ _ _ _ _ _
  | CAddStructure _ | CLanguageSystem _ _ | CLookupFlag _ | CMarkClass _ _ _
  | CPositionMark _ _ _ | CAnchorBasePosition _ _ _ | CKern _ _ _
  | C_addSmallGroup _ _ => True
  | CInclude n => has_char "000" (os_path_join dir n) = false
  | _ => False
  end.

(** The calls that may rewrite the last line instead of appending. *)
Definition edits_last (c : call) : bool :=
  match c with
  | CAddLastLine _ | CEndMarks => true
  | _ => false
  end.

(** Two formatter states that agree on everything but the buffers and
    the indent level. *)
Definition same_names (f g : FeatureFormatter) : Prop :=
  indentSpace g = indentSpace f /\ currentFeature g = currentFeature f
  /\ currentLookup g = currentLookup f /\ currentTableName g = currentTableName f
  /\ featureNames g = featureNames f /\ dirName g = dirName f.

Definition same_frame (f g : FeatureFormatter) : Prop :=
  indentLevel g = indentLevel f /\ same_names f g.

(** [g] only has lines appended to those of [f]. *)
Definition grows (f g : FeatureFormatter) : Prop :=
  exists s, lines g = app (lines f) s.

(** ** Auxiliary lemmas *)

Lemma Ok_inj (f g : FeatureFormatter) : Ok f = Ok g -> f = g.
Proof. congruence. Qed.

Lemma find_from_none_iff (c : ascii) (s : string) (i : Z) :
  0 <= i -> (find_from c s i = -1 <-> has_char c s = false).
Proof.
  revert i; induction s as [|d s IH]; intros i Hi; simpl.
  - split; reflexivity.
  - destruct (Ascii.eqb c d); simpl.
    + split; [lia | discriminate].
    + apply IH; lia.
Qed.

Lemma has_char_app (c : ascii) (a b : string) :
  has_char c (a ++ b) = has_char c a || has_char c b.
Proof.
  induction a as [|d a IH]; simpl; [reflexivity|].
  rewrite IH, orb_assoc; reflexivity.
Qed.

Lemma has_char_join (c : ascii) (sep : string) (l : list string) :
  has_char c sep = false -> Forall (fun n => has_char c n = false) l ->
  has_char c (py_join sep l) = false.
Proof.
  unfold py_join; intros Hs Hl; induction Hl as [|x l Hx Hl IH]; [reflexivity|].
  destruct l as [|y l]; simpl; [exact Hx|].
  change (has_char c (x ++ sep ++ String.concat sep (y :: l)) = false).
  rewrite !has_char_app, Hx, Hs, IH; reflexivity.
Qed.

Lemma has_char_self (c : ascii) (a r : string) : has_char c (a ++ String c r) = true.
Proof.
  induction a as [|d a IH]; simpl.
  - rewrite Ascii.eqb_refl; reflexivity.
  - rewrite IH, orb_true_r; reflexivity.
Qed.

Lemma str_app_assoc (a b c : string) : (a ++ b) ++ c = a ++ b ++ c.
Proof. induction a as [|d a IH]; simpl; [reflexivity | rewrite IH; reflexivity]. Qed.

Lemma py_last_snoc (l : list string) (x : string) : py_last (app l [x]) = Some x.
Proof.
  induction l as [|a l IH]; [reflexivity|].
  destruct l as [|b l]; [reflexivity|].
  simpl in *; exact IH.
Qed.

Lemma set_last_snoc (l : list string) (x y : string) : set_last (app l [x]) y = app l [y].
Proof.
  unfold set_last; rewrite removelast_app by discriminate; simpl.
  rewrite app_nil_r; reflexivity.
Qed.

Lemma lines_addLine (args : list string) (f : FeatureFormatter) :
  lines (addLine args f) = app (lines f) [prefix f ++ py_join " " args].
Proof. reflexivity. Qed.

Lemma prefix_addLine (args : list string) (f : FeatureFormatter) :
  prefix (addLine args f) = prefix f.
Proof. reflexivity. Qed.

(** [addLastLine] after a line with no ['#'] glues the text onto it. *)
Lemma addLastLine_addLine_plain (f : FeatureFormatter) (args : list string) (x : string) :
  py_find (prefix f ++ py_join " " args) "#" = -1 ->
  addLastLine x (addLine args f)
  = Ok (set_lines (app (lines f) [prefix f ++ py_join " " args ++ x]) (addLine args f)).
Proof.
  intros H; unfold addLastLine, lastLineIsComment.
  rewrite lines_addLine, py_last_snoc.
  unfold py_find in H; unfold py_find; rewrite H; simpl.
  rewrite set_last_snoc, str_app_assoc; reflexivity.
Qed.

(** [addLastLine] after a [comment] line starts a new line. *)
Lemma addLastLine_after_comment (f : FeatureFormatter) (s x : string) :
  addLastLine x (comment [s] f) = Ok (addLine [x] (comment [s] f)).
Proof.
  unfold addLastLine, lastLineIsComment; simpl.
  rewrite py_last_snoc.
  assert (Hh : Z.eqb (py_find (prefix f ++ "# " ++ s) "#") (-1) = false).
  { apply Z.eqb_neq; intros E; apply find_from_none_iff in E; [|lia].
    change ("# " ++ s) with (String "#" (" " ++ s)) in E.
    rewrite has_char_self in E; discriminate. }
  simpl in Hh |- *; rewrite Hh; reflexivity.
Qed.

Lemma no_hash_iff (s : string) : py_find s "#" = -1 <-> has_char "#" s = false.
Proof. apply find_from_none_iff; lia. Qed.

Lemma structure_fold {A : Type} (g : FeatureFormatter -> A -> FeatureFormatter) :
  (forall f a, structure (g f a) = structure f) ->
  forall l f, structure (fold_left g l f) = structure f.
Proof.
  intros Hg l; induction l as [|a l IH]; intros f; simpl; [reflexivity|].
  rewrite IH, Hg; reflexivity.
Qed.

Lemma structure_comment (args : list string) (f : FeatureFormatter) :
  structure (comment args f) = structure f.
Proof. apply structure_fold; reflexivity. Qed.

(** The calls that only move the indent level. *)
Definition indent_dedent_only (c : call) : Prop :=
  match c with
  | CIndent k => 0 <= k
  | CDedent _ => True
  | _ => False
  end.

Lemma run_indent_dedent_nonneg (path_exists : string -> bool) (cs : list call) :
  Forall indent_dedent_only cs ->
  forall f, 0 <= indentLevel f ->
  exists f', run path_exists cs f = Ok f' /\ 0 <= indentLevel f'.
Proof.
  induction 1 as [|c cs Hc Hcs IH]; intros f Hf; simpl.
  - exists f; split; [reflexivity | exact Hf].
  - destruct c; simpl in Hc; try contradiction.
    + apply IH; simpl; lia.
    + apply IH; simpl; lia.
Qed.

Lemma chunks_app (a b : list emit) : chunks (app a b) = app (chunks a) (chunks b).
Proof. unfold chunks; apply flat_map_app. Qed.

Lemma chunks_line_no (b : bool) (k : Z) :
  chunks (if b then [EmitLineNo k] else []) = [].
Proof. destruct b; reflexivity. Qed.

Lemma weight_app (a b : list string) : weight (app a b) = weight a + weight b.
Proof. induction a as [|x a IH]; simpl; [reflexivity | rewrite IH; lia]. Qed.

Lemma weight_nonneg (l : list string) : 0 <= weight l.
Proof.
  induction l as [|x l IH]; simpl; [lia|].
  unfold py_len; lia.
Qed.

(** Reading the body lines in order gives back the names in order. *)
Lemma group_loop_concat (lineLength : Z) (parts : list string) :
  forall c k line, concat (chunks (group_loop lineLength parts c k line)) = app line parts.
Proof.
  induction parts as [|n rest IH]; intros c k line; simpl.
  - destruct line; simpl; [reflexivity | rewrite !app_nil_r; reflexivity].
  - destruct (Z.gtb c lineLength).
    + change (concat (line :: chunks (app (if Z.eqb (Z.modulo (k + 1) 10) 0
                                          then [EmitLineNo (k + 1)] else [])
                                       (group_loop lineLength rest 0 (k + 1) (app [] [n]))))
              = app line (n :: rest)).
      simpl; rewrite chunks_app, chunks_line_no; simpl; rewrite IH; reflexivity.
    + rewrite IH, <- app_assoc; reflexivity.
Qed.

Lemma Forall_removelast_cons {A : Type} (P : A -> Prop) (a : A) (l : list A) :
  P a -> Forall P (removelast l) -> Forall P (removelast (a :: l)).
Proof. intros Ha Hl; destruct l; simpl; [constructor | constructor; assumption]. Qed.

(** A body line is flushed only once its count exceeds [lineLength]. *)
Lemma group_loop_overshoot (lineLength : Z) (parts : list string) :
  forall c k line, c <= weight line ->
  Forall (fun l => lineLength < weight l)
         (removelast (chunks (group_loop lineLength parts c k line))).
Proof.
  induction parts as [|n rest IH]; intros c k line Hc; simpl.
  - destruct line; constructor.
  - destruct (Z.gtb c lineLength) eqn:E.
    + apply Z.gtb_lt in E.
      change (Forall (fun l => lineLength < weight l)
                (removelast (line :: chunks (app (if Z.eqb (Z.modulo (k + 1) 10) 0
                                                  then [EmitLineNo (k + 1)] else [])
                                   (group_loop lineLength rest 0 (k + 1) (app [] [n])))))).
      apply Forall_removelast_cons; [lia|].
      rewrite chunks_app, chunks_line_no; apply IH, weight_nonneg.
    + apply IH; rewrite weight_app; simpl; lia.
Qed.

Lemma fold_apply_emit (es : list emit) :
  forall f, lines (fold_left apply_emit es f)
            = app (lines f) (map (fun e => prefix f ++ emit_text e) es)
         /\ prefix (fold_left apply_emit es f) = prefix f
         /\ indentLevel (fold_left apply_emit es f) = indentLevel f
         /\ indentSpace (fold_left apply_emit es f) = indentSpace f.
Proof.
  induction es as [|e es IH]; intros f; simpl.
  - rewrite app_nil_r; repeat split; reflexivity.
  - destruct (IH (apply_emit f e)) as [H1 [H2 [H3 H4]]].
    rewrite H1, H2, H3, H4.
    destruct e; simpl; rewrite <- app_assoc; repeat split; reflexivity.
Qed.

Lemma lines_comment_one (s : string) (f : FeatureFormatter) :
  lines (comment [s] f) = app (lines f) [prefix f ++ "# " ++ s].
Proof. reflexivity. Qed.

Lemma lines_dedent (k : Z) (f : FeatureFormatter) : lines (dedent k f) = lines f.
Proof. reflexivity. Qed.

Lemma prefix_dedent (k : Z) (f : FeatureFormatter) :
  prefix (dedent k f) = py_mul (indentSpace f) (Z.max (indentLevel f - k) 0).
Proof. reflexivity. Qed.

Lemma py_mul_clamp (s : string) (z : Z) : py_mul s (Z.max z 0) = py_mul s z.
Proof.
  unfold py_mul; f_equal.
  destruct (Z.max_spec z 0) as [[H1 H2] | [H1 H2]]; rewrite H2; lia.
Qed.

Lemma prefix_dedent_indent (f : FeatureFormatter) :
  prefix (dedent 1 (indent 1 f)) = prefix f.
Proof.
  unfold prefix, py_mul; simpl; f_equal.
  destruct (Z.max_spec (indentLevel f + 1 - 1) 0) as [[H1 H2] | [H1 H2]];
    rewrite H2; lia.
Qed.

Lemma fold_rel {A : Type} (R : FeatureFormatter -> FeatureFormatter -> Prop)
    (h : FeatureFormatter -> A -> FeatureFormatter) :
  (forall f, R f f) -> (forall f g k, R f g -> R g k -> R f k) ->
  (forall f a, R f (h f a)) -> forall l f, R f (fold_left h l f).
Proof.
  intros Hr Ht Hh l; induction l as [|a l IH]; intros f; simpl; [apply Hr|].
  eapply Ht; [apply Hh | apply IH].
Qed.

Lemma same_names_refl (f : FeatureFormatter) : same_names f f.
Proof. repeat split. Qed.

Lemma same_names_trans (f g k : FeatureFormatter) :
  same_names f g -> same_names g k -> same_names f k.
Proof.
  unfold same_names; intros (H1&H2&H3&H4&H5&H6) (G1&G2&G3&G4&G5&G6).
  repeat split; congruence.
Qed.

Lemma same_frame_refl (f : FeatureFormatter) : same_frame f f.
Proof. split; [reflexivity | apply same_names_refl]. Qed.

Lemma same_frame_trans (f g k : FeatureFormatter) :
  same_frame f g -> same_frame g k -> same_frame f k.
Proof.
  intros [H1 H2] [G1 G2]; split; [congruence | eapply same_names_trans; eauto].
Qed.

Lemma grows_refl (f : FeatureFormatter) : grows f f.
Proof. exists []; rewrite app_nil_r; reflexivity. Qed.

Lemma grows_trans (f g k : FeatureFormatter) : grows f g -> grows g k -> grows f k.
Proof.
  intros [s1 H1] [s2 H2]; exists (app s1 s2); rewrite H2, H1, app_assoc; reflexivity.
Qed.

Lemma same_structure_trans (f g k : FeatureFormatter) :
  structure g = structure f -> structure k = structure g -> structure k = structure f.
Proof. congruence. Qed.

Ltac frame_by_compute := unfold same_frame, same_names; simpl; repeat split.

Lemma frame_addLine (args : list string) (f : FeatureFormatter) : same_frame f (addLine args f).
Proof. frame_by_compute. Qed.

Lemma grows_addLine (args : list string) (f : FeatureFormatter) : grows f (addLine args f).
Proof. eexists; reflexivity. Qed.

Lemma frame_comment (args : list string) (f : FeatureFormatter) : same_frame f (comment args f).
Proof.
  apply (fold_rel same_frame); [apply same_frame_refl | apply same_frame_trans |].
  intros; apply frame_addLine.
Qed.

Lemma grows_comment (args : list string) (f : FeatureFormatter) : grows f (comment args f).
Proof.
  apply (fold_rel grows); [apply grows_refl | apply grows_trans |].
  intros; apply grows_addLine.
Qed.

Lemma frame_addStructure (tags : list string) (f : FeatureFormatter) :
  same_frame f (addStructure tags f) /\ lines (addStructure tags f) = lines f.
Proof.
  split.
  - apply (fold_rel same_frame); [apply same_frame_refl | apply same_frame_trans |].
    intros; frame_by_compute.
  - apply (fold_rel (fun f g => lines g = lines f)); [reflexivity | congruence |].
    reflexivity.
Qed.

Lemma frame_title (args : list string) (f : FeatureFormatter) :
  same_frame f (title args f) /\ grows f (title args f).
Proof.
  unfold title; destruct (frame_addStructure ["'" ++ py_join " " args ++ "'"] f) as [Hf Hl].
  set (f1 := addStructure _ f).
  split.
  - eapply same_frame_trans; [exact Hf|].
    eapply same_frame_trans; [apply frame_addLine|].
    eapply same_frame_trans; [apply frame_addLine|].
    eapply same_frame_trans; [apply frame_comment|].
    eapply same_frame_trans; [|apply frame_comment].
    apply (fold_rel same_frame); [apply same_frame_refl | apply same_frame_trans |].
    intros; apply frame_comment.
  - apply (grows_trans f f1); [exists []; rewrite app_nil_r; exact Hl|].
    eapply grows_trans; [apply grows_addLine|].
    eapply grows_trans; [apply grows_addLine|].
    eapply grows_trans; [apply grows_comment|].
    eapply grows_trans; [|apply grows_comment].
    apply (fold_rel grows); [apply grows_refl | apply grows_trans |].
    intros; apply grows_comment.
Qed.

(** [include] raises only for a joined path holding a NUL byte; when it
    does not raise it only appends lines. *)
Lemma include_Ok (path_exists : string -> bool) (fileName : string) (f g : FeatureFormatter) :
  include path_exists fileName f = Ok g ->
  same_frame f g /\ grows f g /\ structure g = structure f.
Proof.
  unfold include; cbv zeta; destruct (has_char _ _); [discriminate|].
  destruct (negb _); intros H; apply Ok_inj in H; subst g.
  - split; [eapply same_frame_trans; [apply frame_addLine | apply frame_comment]|].
    split; [eapply grows_trans; [apply grows_addLine | apply grows_comment]|].
    rewrite structure_comment; reflexivity.
  - split; [apply frame_addLine|]. split; [apply grows_addLine | reflexivity].
Qed.

Lemma include_no_nul (path_exists : string -> bool) (fileName : string) (f : FeatureFormatter) :
  has_char "000" (os_path_join (dirName f) fileName) = false ->
  exists g, include path_exists fileName f = Ok g.
Proof.
  unfold include; cbv zeta; intros H; rewrite H.
  destruct (negb _); eexists; reflexivity.
Qed.

Lemma structure_addStructure (tags : list string) :
  forall f, structure (addStructure tags f) = app (structure f) (map (fun t => prefix f ++ t) tags).
Proof.
  induction tags as [|t tags IH]; intros f; [simpl; rewrite app_nil_r; reflexivity|].
  unfold addStructure in *; simpl fold_left; rewrite IH; simpl.
  rewrite <- app_assoc; reflexivity.
Qed.

Lemma frame_apply_emits (es : list emit) (f : FeatureFormatter) :
  same_frame f (fold_left apply_emit es f) /\ grows f (fold_left apply_emit es f)
  /\ structure (fold_left apply_emit es f) = structure f.
Proof.
  split; [|split].
  - apply (fold_rel same_frame); [apply same_frame_refl | apply same_frame_trans |].
    intros g [l|k]; [apply frame_addLine | apply frame_comment].
  - apply (fold_rel grows); [apply grows_refl | apply grows_trans |].
    intros g [l|k]; [apply grows_addLine | apply grows_comment].
  - apply structure_fold; intros g [l|k]; [reflexivity | apply structure_comment].
Qed.

Lemma removelast_prefix (l : list string) : exists s, l = app (removelast l) s.
Proof.
  destruct l as [|x l] using rev_ind; [exists []; reflexivity|].
  exists [x]; rewrite removelast_app by discriminate; simpl; rewrite app_nil_r; reflexivity.
Qed.

(** [addLastLine] only rewrites the last line or appends one. *)
Lemma addLastLine_effect (text : string) (f g : FeatureFormatter) :
  addLastLine text f = Ok g ->
  same_frame f g /\ structure g = structure f
  /\ (exists s, lines g = app (removelast (lines f)) s)
  /\ (List.length (lines f) <= List.length (lines g))%nat.
Proof.
  unfold addLastLine, lastLineIsComment.
  destruct (py_last (lines f)) as [l|] eqn:E; [|discriminate].
  destruct (negb _); intros H; injection H as <-.
  - split; [apply frame_addLine|]. split; [reflexivity|].
    destruct (removelast_prefix (lines f)) as [s Hs].
    split; [exists (app s [prefix f ++ py_join " " [text]]); simpl; rewrite app_assoc, <- Hs;
            reflexivity|].
    simpl; rewrite length_app; simpl; lia.
  - split; [frame_by_compute|]. split; [reflexivity|].
    split; [eexists; reflexivity|].
    simpl; unfold set_last.
    assert (Hne : lines f <> []) by (intros Hn; rewrite Hn in E; discriminate).
    rewrite length_app; simpl.
    destruct (removelast_prefix (lines f)) as [s Hs].
    assert (List.length (lines f) = S (List.length (removelast (lines f))))
      by (apply (f_equal (@List.length string)) in Hs;
          destruct (exists_last Hne) as [l' [a Ha]]; rewrite Ha, removelast_app by discriminate;
          simpl; rewrite app_nil_r, length_app; simpl; lia).
    lia.
Qed.

Lemma grows_effect (f g : FeatureFormatter) :
  grows f g ->
  (exists s, lines g = app (removelast (lines f)) s)
  /\ (List.length (lines f) <= List.length (lines g))%nat.
Proof.
  intros [s Hs]; destruct (removelast_prefix (lines f)) as [s0 H0].
  split; [exists (app s0 s); rewrite Hs, app_assoc, <- H0; reflexivity|].
  rewrite Hs, length_app; lia.
Qed.

Lemma names_indent (k : Z) (f : FeatureFormatter) : same_names f (indent k f).
Proof. repeat split. Qed.

Lemma names_dedent (k : Z) (f : FeatureFormatter) : same_names f (dedent k f).
Proof. repeat split. Qed.

(** [_addSmallGroup] never raises, keeps the indent level and only appends
    lines: its [";"] goes onto the line it has just written or after it. *)
Lemma addSmallGroup_effect (glyphNames : list string) (groupName : option string)
    (f : FeatureFormatter) :
  exists g, _addSmallGroup glyphNames groupName f = Ok g
    /\ same_frame f g /\ structure g = structure f /\ grows f g.
Proof.
  unfold _addSmallGroup; destruct (py_truthy groupName).
  - set (f1 := addLine _ f).
    assert (Hc : exists b, lastLineIsComment f1 = Some b)
      by (unfold lastLineIsComment, f1; rewrite lines_addLine, py_last_snoc; eexists; reflexivity).
    destruct Hc as [b Hb].
    assert (Hok : exists g, addLastLine ";" f1 = Ok g).
    { unfold addLastLine; rewrite Hb; destruct b; [eexists; reflexivity|].
      unfold f1; rewrite lines_addLine, py_last_snoc; eexists; reflexivity. }
    destruct Hok as [g Hg]; exists g; split; [exact Hg|].
    destruct (addLastLine_effect _ _ _ Hg) as [Hfr [Hs [[s1 Hx] Hlen]]].
    split; [eapply same_frame_trans; [apply frame_addLine | exact Hfr]|].
    split; [exact Hs|].
    assert (Hf1 : lines f1 = app (lines f) [prefix f ++ py_join " " [
               "@" ++ strip_class_marker (py_str_opt groupName) ++ " = [ "
               ++ py_join " " glyphNames ++ " ]"]]) by reflexivity.
    rewrite Hf1, removelast_app, app_nil_r in Hx by discriminate.
    exists s1; exact Hx.
  - eexists; split; [reflexivity|].
    split; [apply frame_addLine|]. split; [reflexivity | apply grows_addLine].
Qed.

(** [addGroup] never raises, keeps everything but the buffer and (for a
    negative level, which it clamps to 0) the indent level, and only appends
    lines. *)
Lemma addGroup_effect (glyphNames : list string) (groupName : option string)
    (lineLength : Z) (sort lineNumbers comment_ : bool) (f : FeatureFormatter) :
  exists g, addGroup glyphNames groupName lineLength sort lineNumbers comment_ f = Ok g
    /\ same_names f g /\ structure g = structure f
    /\ Z.max (indentLevel g) 0 = Z.max (indentLevel f) 0
    /\ (0 <= indentLevel f -> indentLevel g = indentLevel f)
    /\ grows f g.
Proof.
  unfold addGroup; destruct (Nat.ltb (List.length glyphNames) 5).
  - destruct (addSmallGroup_effect glyphNames groupName f) as [g [Hg [[Hl Hn] [Hs Hgr]]]].
    exists g; split; [exact Hg|]. split; [exact Hn|]. split; [exact Hs|].
    split; [rewrite Hl; reflexivity|]. split; [intros _; exact Hl | exact Hgr].
  - destruct (py_truthy groupName);
    set (f0 := addLine _ f);
    (assert (H0 : same_frame f f0 /\ grows f f0 /\ structure f0 = structure f)
      by (split; [apply frame_addLine | split; [apply grows_addLine | reflexivity]]));
    destruct H0 as [[Hl0 Hn0] [Hg0 Hs0]];
    set (f1 := comment _ (indent 1 f0));
    (destruct (frame_comment [ "total " ++ py_str_int (Z.of_nat (List.length glyphNames)) ++ " names"]
                (indent 1 f0)) as [Hl1 Hn1]);
    set (es := group_loop _ _ _ _ _);
    destruct (frame_apply_emits es f1) as [[Hl2 Hn2] [Hg2 Hs2]];
    set (f2 := fold_left apply_emit es f1) in *;
    (assert (Hnames : same_names f (dedent 1 f2))
      by (eapply same_names_trans; [exact Hn0|];
          eapply same_names_trans; [apply names_indent|];
          eapply same_names_trans; [exact Hn1|];
          eapply same_names_trans; [exact Hn2 | apply names_dedent]));
    (assert (Hgrow : grows f (dedent 1 f2))
      by (eapply grows_trans; [exact Hg0|];
          eapply grows_trans; [|exact Hg2];
          apply (grows_trans f0 (indent 1 f0)); [exists []; rewrite app_nil_r; reflexivity | apply grows_comment]));
    (assert (Hstr : structure (dedent 1 f2) = structure f)
      by (simpl; rewrite Hs2; unfold f1; rewrite structure_comment; exact Hs0));
    (assert (Hlev : indentLevel (dedent 1 f2) = Z.max (indentLevel f) 0)
      by (simpl; rewrite Hl2; unfold f1; rewrite Hl1; unfold f0; simpl; lia));
    (eexists; split; [reflexivity|];
     split; [eapply same_names_trans; [exact Hnames | apply frame_addLine]|];
     split; [exact Hstr|];
     split; [change (Z.max (indentLevel (dedent 1 f2)) 0 = Z.max (indentLevel f) 0);
             rewrite Hlev; lia|];
     split; [intros Hp; change (indentLevel (dedent 1 f2) = indentLevel f); rewrite Hlev; lia|];
     eapply grows_trans; [exact Hgrow | apply grows_addLine]).
Qed.

Lemma endMarks_as_addLastLine (f : FeatureFormatter) :
  endMarks f = addLastLine ";" (dedent 1 f).
Proof. reflexivity. Qed.

Lemma structure_title (args : list string) (f : FeatureFormatter) :
  structure (title args f) = app (structure f) [prefix f ++ "'" ++ py_join " " args ++ "'"].
Proof.
  unfold title.
  rewrite structure_comment, structure_fold by (intros; apply structure_comment).
  rewrite structure_comment; reflexivity.
Qed.

Ltac solve_logs :=
  split; [simpl; rewrite ?app_nil_r; reflexivity|];
  split; [first [eexists; reflexivity | exists []; rewrite app_nil_r; reflexivity]|];
  apply grows_effect; first [eexists; reflexivity | exists []; rewrite app_nil_r; reflexivity].

Lemma logs_of_frame (f g : FeatureFormatter) :
  same_frame f g -> grows f g -> structure g = structure f ->
  featureNames g = app (featureNames f) []
  /\ (exists s, structure g = app (structure f) s)
  /\ (exists s, lines g = app (removelast (lines f)) s)
  /\ (List.length (lines f) <= List.length (lines g))%nat.
Proof.
  intros [_ (_&_&_&_&Hn&_)] Hg Hs.
  split; [rewrite Hn, app_nil_r; reflexivity|].
  split; [exists []; rewrite Hs, app_nil_r; reflexivity|].
  apply grows_effect, Hg.
Qed.

(** One call: the feature list grows by the feature it opens, the structure
    outline only grows, and of the line buffer at most the last line is
    changed (lines are only appended otherwise). *)
Lemma exec_logs (path_exists : string -> bool) (c : call) (f g : FeatureFormatter) :
  exec path_exists c f = Ok g ->
  featureNames g = app (featureNames f) (started_features [c])
  /\ (exists s, structure g = app (structure f) s)
  /\ (exists s, lines g = app (removelast (lines f)) s)
  /\ (List.length (lines f) <= List.length (lines g))%nat.
Proof.
  destruct c; simpl; intros H.
  all: try (injection H as <-; solve [solve_logs]).
  - (* comment *)
    injection H as <-; apply logs_of_frame; [apply frame_comment |
      apply grows_comment | apply structure_comment].
  - (* title *)
    injection H as <-; destruct (frame_title args f) as [Hf Hg].
    destruct Hf as [_ (_&_&_&_&Hn&_)].
    split; [rewrite Hn, app_nil_r; reflexivity|].
    split; [eexists; apply structure_title|].
    apply grows_effect, Hg.
  - (* addLastLine *)
    destruct (addLastLine_effect _ _ _ H) as [[_ (_&_&_&_&Hn&_)] [Hs [Hl Hlen]]].
    split; [rewrite Hn, app_nil_r; reflexivity|].
    split; [exists []; rewrite Hs, app_nil_r; reflexivity|].
    split; [exact Hl | exact Hlen].
  - (* addGroup *)
    destruct (addGroup_effect glyphNames groupName lineLength sort lineNumbers comment_ f)
      as [g' [Hg' [(_&_&_&_&Hn&_) [Hs [_ [_ Hgr]]]]]].
    rewrite Hg' in H; apply Ok_inj in H; subst g.
    split; [rewrite Hn, app_nil_r; reflexivity|].
    split; [exists []; rewrite Hs, app_nil_r; reflexivity|].
    apply grows_effect, Hgr.
  - (* include *)
    destruct (include_Ok path_exists fileName f g H) as [Hf [Hg Hs]].
    apply logs_of_frame; [exact Hf | exact Hg | exact Hs].
  - (* positionBaseMark *)
    discriminate H.
  - (* endMarks *)
    rewrite endMarks_as_addLastLine in H.
    destruct (addLastLine_effect _ _ _ H) as [[_ (_&_&_&_&Hn&_)] [Hs [Hl Hlen]]].
    split; [rewrite Hn, app_nil_r; reflexivity|].
    split; [exists []; rewrite Hs, app_nil_r; reflexivity|].
    split; [exact Hl | exact Hlen].
  - (* addStructure *)
    apply Ok_inj in H; subst g.
    destruct (frame_addStructure tags f) as [[_ (_&_&_&_&Hn&_)] Hl].
    split; [rewrite Hn, app_nil_r; reflexivity|].
    split; [eexists; apply structure_addStructure|].
    apply grows_effect; exists []; rewrite Hl, app_nil_r; reflexivity.
  - (* lastLineIsComment *)
    destruct (lastLineIsComment f); [|discriminate H].
    apply Ok_inj in H; subst g; solve_logs.
  - (* _addSmallGroup *)
    destruct (addSmallGroup_effect glyphNames groupName f) as [g' [Hg' [Hf [Hs Hgr]]]].
    rewrite Hg' in H; apply Ok_inj in H; subst g.
    apply logs_of_frame; [exact Hf | exact Hgr | exact Hs].
Qed.

(** Every call but [addLastLine] and [endMarks] only appends lines. *)
Lemma exec_appends (path_exists : string -> bool) (c : call) (f g : FeatureFormatter) :
  edits_last c = false -> exec path_exists c f = Ok g -> grows f g.
Proof.
  destruct c; simpl; intros He H; try discriminate He.
  all: try (apply Ok_inj in H; subst g;
            solve [eexists; reflexivity | exists []; simpl; rewrite app_nil_r; reflexivity]).
  - (* comment *)
    apply Ok_inj in H; subst g; apply grows_comment.
  - (* title *)
    apply Ok_inj in H; subst g; apply (proj2 (frame_title args f)).
  - (* addGroup *)
    destruct (addGroup_effect glyphNames groupName lineLength sort lineNumbers comment_ f)
      as [g' [Hg' [_ [_ [_ [_ Hgr]]]]]].
    rewrite Hg' in H; apply Ok_inj in H; subst g; exact Hgr.
  - (* include *)
    apply (include_Ok path_exists fileName f g H).
  - (* positionBaseMark *)
    discriminate H.
  - (* addStructure *)
    apply Ok_inj in H; subst g.
    exists []; rewrite (proj2 (frame_addStructure tags f)), app_nil_r; reflexivity.
  - (* lastLineIsComment *)
    destruct (lastLineIsComment f); [|discriminate H].
    apply Ok_inj in H; subst g; apply grows_refl.
  - (* _addSmallGroup *)
    destruct (addSmallGroup_effect glyphNames groupName f) as [g' [Hg' [_ [_ Hgr]]]].
    rewrite Hg' in H; apply Ok_inj in H; subst g; exact Hgr.
Qed.

Lemma removelast_compose (a b c : list string) (s1 s2 : list string) :
  b = app (removelast a) s1 -> (List.length a <= List.length b)%nat ->
  c = app (removelast b) s2 -> exists s, c = app (removelast a) s.
Proof.
  intros Hb Hlen Hc.
  destruct s1 as [|x s1] using rev_ind.
  - rewrite app_nil_r in Hb.
    destruct a as [|y a] using rev_ind; [exists c; reflexivity|].
    rewrite removelast_app in Hb by discriminate; simpl in Hb; rewrite app_nil_r in Hb.
    subst b; rewrite length_app in Hlen; simpl in Hlen; lia.
  - exists (app s1 s2); subst c b.
    rewrite app_assoc, removelast_app by discriminate; simpl.
    rewrite app_nil_r, app_assoc; reflexivity.
Qed.

(** A run of calls that does not raise: [exec_logs] over the sequence. *)
Lemma run_logs (path_exists : string -> bool) (cs : list call) :
  forall f g, run path_exists cs f = Ok g ->
  featureNames g = app (featureNames f) (started_features cs)
  /\ (exists s, structure g = app (structure f) s)
  /\ (exists s, lines g = app (removelast (lines f)) s)
  /\ (List.length (lines f) <= List.length (lines g))%nat.
Proof.
  induction cs as [|c cs IH]; intros f g H; simpl in H.
  - injection H as <-.
    split; [rewrite app_nil_r; reflexivity|].
    split; [exists []; rewrite app_nil_r; reflexivity|].
    apply grows_effect, grows_refl.
  - destruct (exec path_exists c f) as [h|e h] eqn:E; [|discriminate].
    destruct (exec_logs _ _ _ _ E) as [Hn1 [[t1 Hs1] [[u1 Hl1] Hlen1]]].
    destruct (IH _ _ H) as [Hn2 [[t2 Hs2] [[u2 Hl2] Hlen2]]].
    split; [rewrite Hn2, Hn1, <- app_assoc; unfold started_features; simpl;
            rewrite app_nil_r; reflexivity|].
    split; [exists (app t1 t2); rewrite Hs2, Hs1, app_assoc; reflexivity|].
    split; [eapply removelast_compose; eauto | lia].
Qed.

Lemma run_app (path_exists : string -> bool) (a b : list call) (f : FeatureFormatter) :
  run path_exists (app a b) f
  = match run path_exists a f with
    | Ok g => run path_exists b g
    | Raise e g => Raise e g
    end.
Proof.
  revert f; induction a as [|c a IH]; intros f; simpl; [reflexivity|].
  destruct (exec path_exists c f); [apply IH | reflexivity].
Qed.

Lemma run_appends (path_exists : string -> bool) (cs : list call) :
  Forall (fun c => edits_last c = false) cs ->
  forall f g, run path_exists cs f = Ok g -> grows f g.
Proof.
  induction 1 as [|c cs Hc Hcs IH]; intros f g H; simpl in H.
  - apply Ok_inj in H; subst g; apply grows_refl.
  - destruct (exec path_exists c f) as [h|e h] eqn:E; [|discriminate H].
    eapply grows_trans; [apply (exec_appends _ _ _ _ Hc E) | apply (IH _ _ H)].
Qed.

Lemma frame_clamp (f g : FeatureFormatter) :
  same_frame f g -> same_names f g /\ Z.max (indentLevel g) 0 = Z.max (indentLevel f) 0.
Proof. intros [Hl Hn]; rewrite Hl; split; [exact Hn | reflexivity]. Qed.

(** Calls that neither open nor close a block run without raising and keep
    the open block names; the indent level is kept too, except that a
    negative one may be clamped to 0 (by a large [addGroup]). *)
Lemma run_flat (path_exists : string -> bool) (dir : string) (body : list call) :
  Forall (flat_call dir) body ->
  forall f, dirName f = dir ->
  exists g, run path_exists body f = Ok g /\ same_names f g
            /\ Z.max (indentLevel g) 0 = Z.max (indentLevel f) 0.
Proof.
  induction 1 as [|c body Hc Hb IH]; intros f Hd; simpl.
  - exists f; split; [reflexivity | split; [apply same_names_refl | reflexivity]].
  - assert (Hstep : exists h, exec path_exists c f = Ok h /\ same_names f h
                    /\ Z.max (indentLevel h) 0 = Z.max (indentLevel f) 0).
    { destruct c; simpl in Hc; try contradiction; simpl;
        try (eexists; split; [reflexivity | apply frame_clamp; solve [frame_by_compute]]).
      - eexists; split; [reflexivity | apply frame_clamp, frame_comment].
      - eexists; split; [reflexivity | apply frame_clamp, (proj1 (frame_title args f))].
      - destruct (addGroup_effect glyphNames groupName lineLength sort lineNumbers comment_ f)
          as [h [Hh [Hn [_ [Hl _]]]]].
        exists h; split; [exact Hh | split; [exact Hn | exact Hl]].
      - rewrite <- Hd in Hc; destruct (include_no_nul path_exists fileName f Hc) as [h Hh].
        exists h; split; [exact Hh | apply frame_clamp, (proj1 (include_Ok _ _ _ _ Hh))].
      - eexists; split; [reflexivity | apply frame_clamp, (proj1 (frame_addStructure tags f))].
      - destruct (addSmallGroup_effect glyphNames groupName f) as [h [Hh [Hf _]]].
        exists h; split; [exact Hh | apply frame_clamp, Hf]. }
    destruct Hstep as [h [Hh [Hn Hl]]]; rewrite Hh.
    destruct (IH h) as [g [Hg [Hn' Hl']]]; [destruct Hn as (_&_&_&_&_&Hd'); congruence|].
    exists g; split; [exact Hg|]; split; [eapply same_names_trans; eauto | congruence].
Qed.

(** ** Claims *)

(** C10: on an empty line buffer (as right after construction),
    [addLastLine], [endMarks] and [lastLineIsComment] raise [IndexError]:
    each reads [self.lines[-1]] unconditionally. *)
Theorem empty_buffer_index_error (f : FeatureFormatter) (text : string) :
  lines f = [] ->
  addLastLine text f = Raise IndexError f
  /\ endMarks f = Raise IndexError (dedent 1 f)
  /\ lastLineIsComment f = None.
Proof.
  intros H; unfold addLastLine, endMarks, lastLineIsComment; simpl; rewrite H.
  repeat split; reflexivity.
Qed.

Lemma empty_buffer_index_error_witness :
  lines (init_default "/tmp") = []
  /\ addLastLine ";" (init_default "/tmp") = Raise IndexError (init_default "/tmp")
  /\ endMarks (init_default "/tmp") = Raise IndexError (dedent 1 (init_default "/tmp"))
  /\ lastLineIsComment (init_default "/tmp") = None.
Proof.
  split; [reflexivity|].
  apply (empty_buffer_index_error (init_default "/tmp") ";"); reflexivity.
Defined.

(** C9: [positionBaseMark] reads the name [ligatureName], bound neither
    locally nor at module level: it raises [NameError] before appending
    anything, whatever the formatter state and the arguments. *)
Theorem positionBaseMark_name_error (path_exists : string -> bool)
    (f : FeatureFormatter) (name : string) (pos : option (Z * Z)) (className : string) :
  exec path_exists (CPositionBaseMark name pos className) f = Raise NameError f.
Proof. reflexivity. Qed.

(** C8: [endFeature] with no open feature is accepted: it never raises,
    dedents (clamped at 0), appends the closing line ["} None;"] and leaves
    the current feature unset, so it can be repeated. *)
Theorem endFeature_without_start (path_exists : string -> bool) (f : FeatureFormatter) :
  currentFeature f = None ->
  exec path_exists CEndFeature f = Ok (endFeature f)
  /\ indentLevel (endFeature f) = Z.max (indentLevel f - 1) 0
  /\ lines (endFeature f)
     = app (lines f) [py_mul (indentSpace f) (Z.max (indentLevel f - 1) 0) ++ "} None;"]
  /\ currentFeature (endFeature f) = None.
Proof.
  intros H; split; [reflexivity|].
  unfold endFeature, addStructure, addLine, dedent, prefix; simpl.
  rewrite H; repeat split; reflexivity.
Qed.

Lemma endFeature_without_start_witness :
  currentFeature (endFeature (init_default "/tmp")) = None
  /\ lines (endFeature (endFeature (init_default "/tmp"))) = ["} None;"; "} None;"].
Proof.
  split; [reflexivity|].
  destruct (endFeature_without_start (fun _ => true) (endFeature (init_default "/tmp")))
    as [_ [_ [H _]]]; [reflexivity|].
  rewrite H; reflexivity.
Defined.

(** C4: [addLastLine x] right after a [comment] line appends [x] as a new
    line; right after an [addLine] whose line has no ['#'] it glues [x] onto
    that line with no separator and adds no line. *)
Theorem addLastLine_comment_guard :
  (forall (f : FeatureFormatter) (s x : string),
     addLastLine x (comment [s] f) = Ok (addLine [x] (comment [s] f)))
  /\ (forall (f : FeatureFormatter) (args : list string) (x : string),
     py_find (prefix f ++ py_join " " args) "#" = -1 ->
     exists f', addLastLine x (addLine args f) = Ok f'
       /\ lines f' = app (lines f) [prefix f ++ py_join " " args ++ x]).
Proof.
  split; [exact addLastLine_after_comment|].
  intros f args x H; rewrite (addLastLine_addLine_plain f args x H).
  eexists; split; reflexivity.
Qed.

Lemma addLastLine_comment_guard_witness :
  exists f', addLastLine ";" (addLine ["sub"; "a"] (init_default "/tmp")) = Ok f'
    /\ lines f' = ["    sub a;"].
Proof.
  destruct (proj2 addLastLine_comment_guard (init_default "/tmp") ["sub"; "a"] ";")
    as [f' [H1 H2]]; [reflexivity|].
  exists f'; split; [exact H1 | rewrite H2; reflexivity].
Defined.

(** C3 (as the code does it): fewer than 5 names give one line.  Without a
    class name it is ["[ n1 ... ]"], with no terminator.  With a class name
    [G] (non-empty; a leading ['@'] is dropped, giving [N]) it is
    ["@N = [ n1 ... ]"], and [";"] is appended to it through [addLastLine]:
    onto the same line when the line contains no ['#'] (in the indentation,
    the class name or a glyph name), and otherwise, the line being taken for
    a comment, on a new line at the same indentation. *)
Theorem small_group_single_line (f : FeatureFormatter) (names : list string)
    (lineLength : Z) (sort lineNumbers comment_ : bool) (G : string) :
  (List.length names < 5)%nat ->
  addGroup names None lineLength sort lineNumbers comment_ f
    = Ok (addLine ["[ " ++ py_join " " names ++ " ]"] f)
  /\ (G <> "" ->
      let line := prefix f ++ "@" ++ strip_class_marker G ++ " = [ " ++ py_join " " names ++ " ]" in
      exists f', addGroup names (Some G) lineLength sort lineNumbers comment_ f = Ok f'
        /\ lines f' = app (lines f) (if has_char "#" line then [line; prefix f ++ ";"]
                                     else [line ++ ";"])).
Proof.
  intros Hlen; unfold addGroup; apply Nat.ltb_lt in Hlen; rewrite Hlen.
  split; [reflexivity|].
  intros HG.
  set (line := prefix f ++ "@" ++ strip_class_marker G ++ " = [ " ++ py_join " " names ++ " ]").
  assert (Ht : py_truthy (Some G) = true)
    by (unfold py_truthy; apply negb_true_iff, String.eqb_neq; exact HG).
  unfold _addSmallGroup; rewrite Ht.
  assert (Hf1 : addLine ["@" ++ strip_class_marker (py_str_opt (Some G)) ++ " = [ "
                         ++ py_join " " names ++ " ]"] f
                = set_lines (app (lines f) [line]) f) by reflexivity.
  rewrite Hf1; unfold addLastLine, lastLineIsComment.
  change (lines (set_lines (app (lines f) [line]) f)) with (app (lines f) [line]).
  rewrite py_last_snoc.
  destruct (has_char "#" line) eqn:E.
  - replace (negb (Z.eqb (py_find line "#") (-1))) with true.
    + eexists; split; [reflexivity|].
      change (app (app (lines f) [line]) [prefix f ++ ";"] = app (lines f) [line; prefix f ++ ";"]).
      rewrite <- app_assoc; reflexivity.
    + symmetry; apply negb_true_iff, Z.eqb_neq; intros Hx.
      apply no_hash_iff in Hx; congruence.
  - replace (negb (Z.eqb (py_find line "#") (-1))) with false
      by (symmetry; apply negb_false_iff, Z.eqb_eq, no_hash_iff, E).
    eexists; split; [reflexivity|].
    change (set_last (app (lines f) [line]) (line ++ ";") = app (lines f) [line ++ ";"]).
    apply set_last_snoc.
Qed.

Lemma small_group_single_line_witness :
  exists f', addGroup ["a"; "b"; "c"] (Some "G") 50 false true false (init_default "/tmp") = Ok f'
    /\ lines f' = ["    @G = [ a b c ];"].
Proof.
  destruct (proj2 (small_group_single_line (init_default "/tmp") ["a"; "b"; "c"] 50 false true false
                     "G" ltac:(simpl; lia)) ltac:(discriminate))
    as [f' [H1 H2]].
  exists f'; split; [exact H1 | rewrite H2; reflexivity].
Defined.

(** C3 fails as stated: a name containing ['#'] makes [addLastLine] put the
    terminator on a line of its own. *)
Lemma small_group_hash_counterexample :
  exists f', addGroup ["a#"] (Some "G") 50 false true false (init_default "/tmp") = Ok f'
    /\ lines f' = ["    @G = [ a# ]"; "    ;"].
Proof. eexists; split; reflexivity. Qed.

(** C5 (as the code does it): [include] first appends the include
    statement.  When the joined path holds a NUL byte, Python 2's
    [os.path.exists] raises [TypeError] (from [os.stat]), which escapes
    [include] after that line.  Otherwise it does not raise: for a missing
    path it appends TWO comment lines, since
    [comment("Note: missing file at", path)] puts each argument on its own
    line; for an existing path nothing more. *)
Theorem include_advisory (path_exists : string -> bool) (f : FeatureFormatter)
    (fileName : string) :
  let path := os_path_join (dirName f) fileName in
  let inc := prefix f ++ "include(" ++ fileName ++ ");" in
  exec path_exists (CInclude fileName) f = include path_exists fileName f
  /\ (has_char "000" path = true ->
      exists g, include path_exists fileName f = Raise TypeError g
        /\ lines g = app (lines f) [inc])
  /\ (has_char "000" path = false -> path_exists path = false ->
      exists g, include path_exists fileName f = Ok g
        /\ lines g = app (lines f) [inc; prefix f ++ "# Note: missing file at";
                                    prefix f ++ "# " ++ path])
  /\ (has_char "000" path = false -> path_exists path = true ->
      exists g, include path_exists fileName f = Ok g /\ lines g = app (lines f) [inc]).
Proof.
  cbv zeta; split; [reflexivity|].
  unfold include; cbv zeta.
  split; [intros H; rewrite H; eexists; split; reflexivity|].
  split; intros H1 H2; rewrite H1, H2; simpl negb; cbv iota;
    (eexists; split; [reflexivity|]); [|reflexivity].
  simpl; rewrite <- !app_assoc; reflexivity.
Qed.

Lemma include_advisory_witness :
  (exists g, include (fun _ => false) "missing.fea" (init_default "/out") = Ok g
     /\ lines g = ["    include(missing.fea);"; "    # Note: missing file at";
                   "    # /out/missing.fea"])
  /\ (exists g, include (fun _ => true) "present.fea" (init_default "/out") = Ok g
     /\ lines g = ["    include(present.fea);"])
  /\ (exists g, include (fun _ => true) ("a" ++ String "000" "b") (init_default "/out")
                = Raise TypeError g
     /\ lines g = ["    include(a" ++ String "000" "b);"]).
Proof.
  split; [|split].
  - exact (proj1 (proj2 (proj2 (include_advisory (fun _ => false) (init_default "/out")
             "missing.fea"))) eq_refl eq_refl).
  - exact (proj2 (proj2 (proj2 (include_advisory (fun _ => true) (init_default "/out")
             "present.fea"))) eq_refl eq_refl).
  - exact (proj1 (proj2 (include_advisory (fun _ => true) (init_default "/out")
             ("a" ++ String "000" "b"))) eq_refl).
Defined.

(** C5 fails as stated: a missing file gets two advisory comment lines, and
    a file name with a NUL byte makes [include] raise. *)
Lemma include_missing_counterexample :
  (exists g, include (fun _ => false) "missing.fea" (init_default "/out") = Ok g
     /\ List.length (lines g) = 3%nat
     /\ lines g = ["    include(missing.fea);"; "    # Note: missing file at";
                   "    # /out/missing.fea"])
  /\ (exists g, include (fun _ => false) ("a" ++ String "000" "b") (init_default "/out")
                = Raise TypeError g
     /\ lines g = ["    include(a" ++ String "000" "b);"]).
Proof.
  split; eexists; (split; [reflexivity|]); [split|]; reflexivity.
Qed.

(** C7 (as the code does it): [startFeature], [startLookup] and [title]
    each record one structure entry at the indent level they start at;
    [endFeature] records its entry after its dedent, at the level of its
    closing line; [endLookup], [startTable] and [endTable] record nothing. *)
Theorem structure_outline_entries (f : FeatureFormatter) (name : string)
    (args : list string) :
  structure (startFeature name f) = app (structure f) [prefix f ++ "feature " ++ name ++ " {"]
  /\ structure (endFeature f)
     = app (structure f) [prefix (dedent 1 f) ++ "} " ++ py_str_opt (currentFeature f) ++ ";"]
  /\ structure (startLookup name f) = app (structure f) [prefix f ++ "lookup " ++ name]
  /\ structure (title args f) = app (structure f) [prefix f ++ "'" ++ py_join " " args ++ "'"]
  /\ structure (endLookup f) = structure f
  /\ structure (startTable name f) = structure f
  /\ structure (endTable f) = structure f.
Proof.
  repeat split; try reflexivity.
  unfold title.
  rewrite structure_comment, structure_fold by (intros; apply structure_comment).
  rewrite structure_comment; reflexivity.
Qed.

(** C7 fails as stated: the [endFeature] entry carries the level after the
    dedent (1, not 2), and [endLookup] and [startTable] record nothing. *)
Lemma structure_outline_counterexample :
  indentLevel (startFeature "liga" (init_default "/tmp")) = 2
  /\ structure (endFeature (startFeature "liga" (init_default "/tmp")))
     = ["    feature liga {"; "    } liga;"]
  /\ structure (endLookup (startLookup "x" (init_default "/tmp"))) = ["    lookup x"]
  /\ structure (startTable "GDEF" (init_default "/tmp")) = [].
Proof. repeat split; reflexivity. Qed.

(** C2 (as the code does it): [dedent(steps)] never raises and sets the
    level to [max(level - steps, 0)], so it never leaves a negative level,
    and at level 0 a dedent by [steps >= 0] leaves exactly 0; [indent(steps)]
    adds [steps] with no clamp.  So the level stays >= 0 along any sequence
    of [indent]/[dedent] calls on a formatter built with [startIndent >= 0]
    when every [indent] step is >= 0. *)
Theorem indent_level_nonneg :
  (forall (path_exists : string -> bool) (f : FeatureFormatter) (steps : Z),
     exec path_exists (CDedent steps) f = Ok (dedent steps f)
     /\ indentLevel (dedent steps f) = Z.max (indentLevel f - steps) 0
     /\ 0 <= indentLevel (dedent steps f)
     /\ (indentLevel f = 0 -> 0 <= steps -> indentLevel (dedent steps f) = 0))
  /\ (forall (path_exists : string -> bool) (f : FeatureFormatter) (steps : Z),
     exec path_exists (CIndent steps) f = Ok (indent steps f)
     /\ indentLevel (indent steps f) = indentLevel f + steps)
  /\ (forall (path_exists : string -> bool) (dirName featurePrefix : string)
        (startIndent : Z) (includeTimeStamp : bool) (indentSpace : string)
        (verbose : bool) (cs : list call),
      0 <= startIndent -> Forall indent_dedent_only cs ->
      exists f', run path_exists cs
                   (init dirName featurePrefix startIndent includeTimeStamp indentSpace verbose)
                 = Ok f' /\ 0 <= indentLevel f').
Proof.
  split; [|split].
  - intros pe f steps; split; [reflexivity|]; simpl.
    split; [reflexivity|]. split; [lia | intros; lia].
  - intros pe f steps; split; reflexivity.
  - intros pe dn fp si ts sp vb cs Hsi Hcs.
    apply run_indent_dedent_nonneg; [exact Hcs | simpl; lia].
Qed.

Lemma indent_level_nonneg_witness :
  indentLevel (dedent 3 (init "/tmp" "AT" 0 true "    " false)) = 0
  /\ exists f', run (fun _ => true) [CDedent 5; CIndent 2; CDedent 1]
               (init "/tmp" "AT" 1 true "    " false) = Ok f'
             /\ 0 <= indentLevel f'.
Proof.
  split.
  - apply (proj2 (proj2 (proj2 (proj1 indent_level_nonneg (fun _ => true)
             (init "/tmp" "AT" 0 true "    " false) 3)))); [reflexivity | lia].
  - apply (proj2 (proj2 indent_level_nonneg) (fun _ => true) "/tmp" "AT" 1 true "    " false
             [CDedent 5; CIndent 2; CDedent 1]); [lia |].
    repeat constructor; simpl; lia.
Defined.

(** C2 fails as stated: a negative [startIndent] or [indent] step makes
    the level negative. *)
Lemma indent_level_counterexample :
  indentLevel (init "/tmp" "AT" (-1) true "    " false) = -1
  /\ run (fun _ => true) [CIndent (-2)] (init_default "/tmp")
     = Ok (indent (-2) (init_default "/tmp"))
  /\ indentLevel (indent (-2) (init_default "/tmp")) = -1.
Proof. repeat split; reflexivity. Qed.

(** C6: [addGroup] declares [lineNumbers] but never reads it: the output is
    the same for both values, and the ["line 10"] comment is written with
    [lineNumbers=False]. *)
Theorem addGroup_lineNumbers_ignored :
  (forall (glyphNames : list string) (groupName : option string) (lineLength : Z)
          (sort comment_ : bool) (f : FeatureFormatter),
     addGroup glyphNames groupName lineLength sort true comment_ f
     = addGroup glyphNames groupName lineLength sort false comment_ f)
  /\ exists f', addGroup (repeat "a" 20) (Some "G") 0 false false false (init_default "/tmp") = Ok f'
       /\ In "        # line 10" (lines f').
Proof.
  split; [reflexivity|].
  eexists; split; [reflexivity|].
  vm_compute; repeat (first [left; reflexivity | right]).
Qed.

(** C1 (as the code does it): for 5 or more names, [addGroup] writes the
    opening line, the ["# total N names"] comment, the body lines of the
    wrapping loop (with its ["# line N"] comments) one level deeper, and the
    closing line.  Before each name the loop flushes the current line when
    its running count has already exceeded [lineLength]; otherwise the count
    grows by [len(name)+1].  So the body lines hold exactly the names in
    order, and each body line but the last has a count ([len+1] per name)
    greater than [lineLength]: lines overshoot the budget. *)
Theorem group_wrapping (f : FeatureFormatter) (names : list string)
    (groupName : option string) (lineLength : Z) (sort lineNumbers comment_ : bool) :
  (5 <= List.length names)%nat ->
  exists f', addGroup names groupName lineLength sort lineNumbers comment_ f = Ok f'
  /\ lines f'
     = app (lines f)
         (app [prefix f ++ (if py_truthy groupName
                            then "@" ++ strip_class_marker (py_str_opt groupName) ++ " = ["
                            else "[");
               prefix (indent 1 f) ++ "# total " ++ py_str_int (Z.of_nat (List.length names))
                 ++ " names"]
          (app (map (fun e => prefix (indent 1 f) ++ emit_text e)
                    (group_loop lineLength (if sort then py_sort names else names) 0 0 []))
               [prefix f ++ (if py_truthy groupName then "];" else "]")]))
  /\ concat (chunks (group_loop lineLength (if sort then py_sort names else names) 0 0 []))
     = (if sort then py_sort names else names)
  /\ Forall (fun l => lineLength < weight l)
       (removelast (chunks (group_loop lineLength (if sort then py_sort names else names) 0 0 []))).
Proof.
  intros Hlen; unfold addGroup.
  replace (Nat.ltb (List.length names) 5) with false by (symmetry; apply Nat.ltb_ge; exact Hlen).
  destruct (py_truthy groupName);
    (eexists; split; [reflexivity|]);
    (split; [| split; [apply group_loop_concat | apply group_loop_overshoot; simpl; lia]]);
    rewrite lines_addLine;
    match goal with
    | |- context [fold_left apply_emit ?es ?g] =>
        destruct (fold_apply_emit es g) as [H1 [H2 [H3 H4]]]
    end;
    rewrite lines_dedent, prefix_dedent, H1, H3, H4; simpl;
    replace (indentLevel f + 1 - 1) with (indentLevel f) by lia;
    rewrite py_mul_clamp, <- !app_assoc; reflexivity.
Qed.

Lemma group_wrapping_witness :
  exists f', addGroup (repeat "aaaaaaaaaa" 6) (Some "G") 50 false true false (init_default "/tmp")
             = Ok f'
    /\ concat (chunks (group_loop 50 (repeat "aaaaaaaaaa" 6) 0 0 [])) = repeat "aaaaaaaaaa" 6.
Proof.
  destruct (group_wrapping (init_default "/tmp") (repeat "aaaaaaaaaa" 6) (Some "G") 50
              false true false) as [f' [H1 [_ [H3 _]]]]; [simpl; lia|].
  exists f'; split; [exact H1 | exact H3].
Defined.

(** C1 fails as stated: with budget 50 and six 10-letter names the code
    puts five names (count 55) on the first body line, where the spec's
    greedy rule flushes after four, since a fifth would exceed 50. *)
Lemma group_wrapping_counterexample :
  chunks (group_loop 50 (repeat "aaaaaaaaaa" 6) 0 0 [])
    = [repeat "aaaaaaaaaa" 5; ["aaaaaaaaaa"]]
  /\ spec_greedy_wrap 50 (repeat "aaaaaaaaaa" 6)
    = [repeat "aaaaaaaaaa" 4; repeat "aaaaaaaaaa" 2]
  /\ 50 < weight (repeat "aaaaaaaaaa" 4) + (py_len "aaaaaaaaaa" + 1)
  /\ exists f', addGroup (repeat "aaaaaaaaaa" 6) (Some "G") 50 false true false
                  (init_default "/tmp") = Ok f'
       /\ lines f' = ["    @G = ["; "        # total 6 names";
                      "        aaaaaaaaaa aaaaaaaaaa aaaaaaaaaa aaaaaaaaaa aaaaaaaaaa";
                      "        aaaaaaaaaa"; "    ];"].
Proof.
  split; [reflexivity|]. split; [reflexivity|]. split; [vm_compute; reflexivity|].
  eexists; split; reflexivity.
Qed.

(** ** Further properties of the formatter *)

Lemma lines_endFeature (f : FeatureFormatter) :
  lines (endFeature f)
  = app (lines f) [py_mul (indentSpace f) (Z.max (indentLevel f - 1) 0) ++ "} "
                   ++ py_str_opt (currentFeature f) ++ ";"].
Proof. reflexivity. Qed.

Lemma lines_endLookup (f : FeatureFormatter) :
  lines (endLookup f)
  = app (lines f) [py_mul (indentSpace f) (Z.max (indentLevel f - 1) 0) ++ "} "
                   ++ py_str_opt (currentLookup f) ++ ";"].
Proof. reflexivity. Qed.

Lemma lines_endTable (f : FeatureFormatter) :
  lines (endTable f)
  = app (lines f) [py_mul (indentSpace f) (Z.max (indentLevel f - 1) 0) ++ "} "
                   ++ py_str_opt (currentTableName f) ++ ";"].
Proof. reflexivity. Qed.

(** A feature block whose body only writes lines or outline entries
    ([addLine], [comment], [title], [addGroup], [addStructure],
    [_addSmallGroup], [languageSystem], [lookupFlag], [markClass],
    [positionMark], [anchorBasePosition], [kern], and [include] of a path
    with no NUL byte)
    runs without raising and closes with ["} name;"] at the indentation of its
    opening line.  It leaves the indent level at the starting one clamped at
    0, no feature open, and [name] recorded in the feature list. *)
Theorem feature_block_balanced (path_exists : string -> bool) (name : string)
    (body : list call) (f : FeatureFormatter) :
  Forall (flat_call (dirName f)) body ->
  exists g, run path_exists (CStartFeature name :: app body [CEndFeature]) f = Ok g
    /\ indentLevel g = Z.max (indentLevel f) 0
    /\ py_last (lines g) = Some (prefix f ++ "} " ++ name ++ ";")
    /\ currentFeature g = None
    /\ featureNames g = app (featureNames f) [name].
Proof.
  intros Hb.
  change (run path_exists (CStartFeature name :: app body [CEndFeature]) f)
    with (run path_exists (app body [CEndFeature]) (startFeature name f)).
  rewrite run_app.
  destruct (run_flat path_exists (dirName f) body Hb (startFeature name f) eq_refl) as
      [h [Hh [(Hsp&Hcf&_&_&Hfn&_) Hlv]]].
  rewrite Hh; eexists; split; [reflexivity|].
  assert (Hl : Z.max (indentLevel h - 1) 0 = Z.max (indentLevel f) 0) by (simpl in Hlv; lia).
  split; [exact Hl|].
  split; [rewrite lines_endFeature, py_last_snoc, Hsp, Hcf, Hl; unfold prefix;
          rewrite py_mul_clamp; reflexivity|].
  split; [reflexivity | simpl; rewrite Hfn; reflexivity].
Qed.

Lemma feature_block_balanced_witness :
  exists g, run (fun _ => false) (CStartFeature "liga" :: app [CAddLine ["sub a by b;"];
                   CComment ["note"]; CInclude "liga.fea"] [CEndFeature])
              (init "/tmp" "AT" (-1) true "    " false) = Ok g
    /\ indentLevel g = 0
    /\ py_last (lines g) = Some "} liga;"
    /\ currentFeature g = None
    /\ featureNames g = ["liga"].
Proof.
  apply (feature_block_balanced (fun _ => false) "liga"
           [CAddLine ["sub a by b;"]; CComment ["note"]; CInclude "liga.fea"]
           (init "/tmp" "AT" (-1) true "    " false)).
  repeat constructor.
Defined.

(** The same for a lookup block: it runs without raising, closes with
    ["} name;"] at its opening indentation, leaves the indent level at the
    starting one clamped at 0, closes the lookup and leaves the feature list
    alone. *)
Theorem lookup_block_balanced (path_exists : string -> bool) (name : string)
    (body : list call) (f : FeatureFormatter) :
  Forall (flat_call (dirName f)) body ->
  exists g, run path_exists (CStartLookup name :: app body [CEndLookup]) f = Ok g
    /\ indentLevel g = Z.max (indentLevel f) 0
    /\ py_last (lines g) = Some (prefix f ++ "} " ++ name ++ ";")
    /\ currentLookup g = None
    /\ featureNames g = featureNames f.
Proof.
  intros Hb.
  change (run path_exists (CStartLookup name :: app body [CEndLookup]) f)
    with (run path_exists (app body [CEndLookup]) (startLookup name f)).
  rewrite run_app.
  destruct (run_flat path_exists (dirName f) body Hb (startLookup name f) eq_refl) as
      [h [Hh [(Hsp&_&Hcl&_&Hfn&_) Hlv]]].
  rewrite Hh; eexists; split; [reflexivity|].
  assert (Hl : Z.max (indentLevel h - 1) 0 = Z.max (indentLevel f) 0) by (simpl in Hlv; lia).
  split; [exact Hl|].
  split; [rewrite lines_endLookup, py_last_snoc, Hsp, Hcl, Hl; unfold prefix;
          rewrite py_mul_clamp; reflexivity|].
  split; [reflexivity | simpl; rewrite Hfn; reflexivity].
Qed.

Lemma lookup_block_balanced_witness :
  exists g, run (fun _ => false) (CStartLookup "kernPairs" :: app [CKern "a" "b" (-10)]
                   [CEndLookup]) (init_default "/tmp") = Ok g
    /\ indentLevel g = 1
    /\ py_last (lines g) = Some "    } kernPairs;"
    /\ currentLookup g = None
    /\ featureNames g = [].
Proof.
  apply (lookup_block_balanced (fun _ => false) "kernPairs" [CKern "a" "b" (-10)]
           (init_default "/tmp")).
  repeat constructor.
Defined.

(** The same for a table block. *)
Theorem table_block_balanced (path_exists : string -> bool) (name : string)
    (body : list call) (f : FeatureFormatter) :
  Forall (flat_call (dirName f)) body ->
  exists g, run path_exists (CStartTable name :: app body [CEndTable]) f = Ok g
    /\ indentLevel g = Z.max (indentLevel f) 0
    /\ py_last (lines g) = Some (prefix f ++ "} " ++ name ++ ";")
    /\ currentTableName g = None
    /\ featureNames g = featureNames f.
Proof.
  intros Hb.
  change (run path_exists (CStartTable name :: app body [CEndTable]) f)
    with (run path_exists (app body [CEndTable]) (startTable name f)).
  rewrite run_app.
  destruct (run_flat path_exists (dirName f) body Hb (startTable name f) eq_refl) as
      [h [Hh [(Hsp&_&_&Hct&Hfn&_) Hlv]]].
  rewrite Hh; eexists; split; [reflexivity|].
  assert (Hl : Z.max (indentLevel h - 1) 0 = Z.max (indentLevel f) 0) by (simpl in Hlv; lia).
  split; [exact Hl|].
  split; [rewrite lines_endTable, py_last_snoc, Hsp, Hct, Hl; unfold prefix;
          rewrite py_mul_clamp; reflexivity|].
  split; [reflexivity | simpl; rewrite Hfn; reflexivity].
Qed.

Lemma table_block_balanced_witness :
  exists g, run (fun _ => false) (CStartTable "GDEF" :: app [CAddLine ["GlyphClassDef [a],,,;"]]
                   [CEndTable]) (init_default "/tmp") = Ok g
    /\ indentLevel g = 1
    /\ py_last (lines g) = Some "    } GDEF;"
    /\ currentTableName g = None
    /\ featureNames g = [].
Proof.
  apply (table_block_balanced (fun _ => false) "GDEF" [CAddLine ["GlyphClassDef [a],,,;"]]
           (init_default "/tmp")).
  repeat constructor.
Defined.

Lemma digit_not_hash (n : N) : Ascii.eqb "#" (ascii_of_N (48 + N.modulo n 10)) = false.
Proof.
  apply Ascii.eqb_neq; intros E.
  assert (Hm : (N.modulo n 10 < 10)%N) by (apply N.mod_lt; discriminate).
  assert (Hc : N_of_ascii (ascii_of_N (48 + N.modulo n 10)) = (48 + N.modulo n 10)%N)
    by (apply N_ascii_embedding; lia).
  rewrite <- E in Hc; change (N_of_ascii "#") with 35%N in Hc.
  generalize dependent (N.modulo n 10); intros m _ Hc; lia.
Qed.

Lemma digits_aux_no_hash (fuel : nat) : forall (n : N) (acc : string),
  has_char "#" acc = false -> has_char "#" (digits_aux fuel n acc) = false.
Proof.
  induction fuel as [|k IH]; intros n acc H; simpl; [exact H|].
  assert (H' : has_char "#" (String (ascii_of_N (48 + N.modulo n 10)) acc) = false)
    by (cbn [has_char]; rewrite digit_not_hash, H; reflexivity).
  destruct (N.eqb (N.div n 10) 0); [exact H' | apply IH, H'].
Qed.

Lemma py_str_int_no_hash (z : Z) : has_char "#" (py_str_int z) = false.
Proof.
  unfold py_str_int, digits; destruct (Z.ltb z 0);
    [cbn [has_char append] |]; apply digits_aux_no_hash; reflexivity.
Qed.

Lemma repeat_str_no_hash (n : nat) (s : string) :
  has_char "#" s = false -> has_char "#" (repeat_str n s) = false.
Proof.
  intros H; induction n as [|n IH]; simpl; [reflexivity|].
  rewrite has_char_app, H, IH; reflexivity.
Qed.

Lemma anchor_no_hash (pos : option (Z * Z)) : has_char "#" (anchor pos) = false.
Proof.
  destruct pos as [[x y]|]; [|reflexivity].
  unfold anchor, py_fmt_d, pad_left.
  rewrite !has_char_app, !repeat_str_no_hash, !py_str_int_no_hash by reflexivity.
  reflexivity.
Qed.

Lemma fold_anchor_lines (xs : list (option (Z * Z) * string * bool)) :
  forall f, lines (fold_left (fun f x => match x with (p, c, e) => anchorBasePosition p c e f end) xs f)
    = app (lines f) (map (fun x => match x with (p, c, e) =>
                            prefix f ++ enable_prefix e ++ anchor p ++ " mark " ++ c end) xs)
  /\ same_frame f (fold_left (fun f x => match x with (p, c, e) => anchorBasePosition p c e f end) xs f).
Proof.
  induction xs as [|[[p c] e] xs IH]; intros f; simpl.
  - rewrite app_nil_r; split; [reflexivity | apply same_frame_refl].
  - destruct (IH (anchorBasePosition p c e f)) as [H1 H2].
    assert (La : lines (anchorBasePosition p c e f)
                 = app (lines f) [prefix f ++ enable_prefix e ++ anchor p ++ " mark " ++ c])
      by reflexivity.
    assert (Pa : prefix (anchorBasePosition p c e f) = prefix f) by reflexivity.
    rewrite H1, La, Pa, <- app_assoc; split; [reflexivity|].
    eapply same_frame_trans; [apply frame_addLine | exact H2].
Qed.

(** A mark-to-base block ([startBaseMarks], one [anchorBasePosition] per
    anchor, [endMarks]) writes the ["position base"] line at the current
    indentation and the anchor lines one level deeper, then returns to the
    starting level (clamped at 0 by the dedent of [endMarks]). The closing
    [";"] is glued onto the last anchor line when that anchor is enabled; when
    it is disabled (written as a ['#'] comment) the [";"] goes on a line of
    its own, at the block's indentation. *)
Theorem base_marks_block (name : string) (enable : bool)
    (anchors : list (option (Z * Z) * string * bool))
    (pos : option (Z * Z)) (className : string) (en : bool) (f : FeatureFormatter) :
  has_char "#" (indentSpace f) = false -> has_char "#" className = false ->
  let inner := py_mul (indentSpace f) (indentLevel f + 1) in
  let last := inner ++ enable_prefix en ++ anchor pos ++ " mark " ++ className in
  exists g,
    endMarks (fold_left (fun f x => match x with (p, c, e) => anchorBasePosition p c e f end)
                (app anchors [(pos, className, en)]) (startBaseMarks name enable f)) = Ok g
    /\ indentLevel g = Z.max (indentLevel f) 0
    /\ lines g = app (lines f)
         (app [prefix f ++ enable_prefix enable ++ "position base " ++ name]
           (app (map (fun x => match x with (p, c, e) =>
                        inner ++ enable_prefix e ++ anchor p ++ " mark " ++ c end) anchors)
             (if en then [last ++ ";"] else [last; prefix f ++ ";"]))).
Proof.
  intros Hs Hc inner last.
  set (f1 := startBaseMarks name enable f).
  assert (L1 : lines f1 = app (lines f) [prefix f ++ enable_prefix enable ++ "position base " ++ name])
    by reflexivity.
  assert (P1 : prefix f1 = inner) by reflexivity.
  rewrite fold_left_app.
  destruct (fold_anchor_lines anchors f1) as [L2 [Lv2 (Sp2&_)]].
  set (h1 := fold_left _ anchors f1) in *.
  assert (Ph1 : prefix h1 = inner) by (unfold prefix; rewrite Lv2, Sp2; exact P1).
  rewrite L1, P1 in L2.
  simpl fold_left.
  rewrite endMarks_as_addLastLine; unfold addLastLine, lastLineIsComment.
  assert (Lh : lines (dedent 1 (anchorBasePosition pos className en h1))
               = app (lines h1) [last]) by (unfold last; rewrite <- Ph1; reflexivity).
  rewrite Lh, py_last_snoc.
  assert (Lvh : indentLevel (dedent 1 (anchorBasePosition pos className en h1))
                = Z.max (indentLevel f) 0).
  { simpl; rewrite Lv2; simpl; lia. }
  destruct en.
  - assert (Hf : py_find last "#" = -1).
    { apply no_hash_iff; unfold last, inner, py_mul; simpl enable_prefix.
      rewrite !has_char_app, repeat_str_no_hash, anchor_no_hash, Hc by exact Hs; reflexivity. }
    rewrite Hf; simpl.
    eexists; split; [reflexivity|]; split; [exact Lvh|].
    simpl; rewrite set_last_snoc, L2, <- !app_assoc; reflexivity.
  - assert (Hf : Z.eqb (py_find last "#") (-1) = false).
    { apply Z.eqb_neq; intros E; apply no_hash_iff in E; unfold last in E.
      rewrite has_char_app in E; simpl in E; rewrite orb_true_r in E; discriminate. }
    rewrite Hf; simpl.
    eexists; split; [reflexivity|]; split; [exact Lvh|].
    rewrite lines_addLine, lines_dedent, prefix_dedent.
    assert (Ep : py_mul (indentSpace (anchorBasePosition pos className false h1))
                   (Z.max (indentLevel (anchorBasePosition pos className false h1) - 1) 0)
                 = prefix f).
    { simpl; rewrite Lv2, Sp2; simpl; unfold prefix.
      rewrite <- (py_mul_clamp _ (indentLevel f)); f_equal; lia. }
    rewrite Ep.
    change (lines (anchorBasePosition pos className false h1)) with (app (lines h1) [prefix h1 ++ "#" ++ anchor pos ++ " mark " ++ className]).
    rewrite Ph1, L2, <- !app_assoc; reflexivity.
Qed.

Lemma base_marks_block_witness :
  has_char "#" (indentSpace (init_default "/tmp")) = false
  /\ has_char "#" "@MARK_CLASS_BELOW" = false
  /\ exists g,
    endMarks (fold_left (fun f x => match x with (p, c, e) => anchorBasePosition p c e f end)
                (app [(Some (329, 800), "@MARK_CLASS_ABOVE", true)]
                     [(Some (329, -253), "@MARK_CLASS_BELOW", false)])
                (startBaseMarks "aTcheh.init" true (init_default "/tmp"))) = Ok g
    /\ indentLevel g = 1
    /\ lines g = ["    position base aTcheh.init";
                  "        <anchor   329   800> mark @MARK_CLASS_ABOVE";
                  "        #<anchor   329  -253> mark @MARK_CLASS_BELOW";
                  "    ;"].
Proof.
  split; [reflexivity|]. split; [reflexivity|].
  exact (base_marks_block "aTcheh.init" true [(Some (329, 800), "@MARK_CLASS_ABOVE", true)]
           (Some (329, -253)) "@MARK_CLASS_BELOW" false (init_default "/tmp")
           eq_refl eq_refl).
Defined.

(** Lookups do not nest: the second [startLookup] overwrites the name of the
    first, so the inner [endLookup] closes with the inner name and the outer
    one writes ["} None;"]. The lines sit at the indentation they were opened
    at, and the indent level ends where it started (clamped at 0). *)
Theorem nested_lookups (path_exists : string -> bool) (a b : string) (f : FeatureFormatter) :
  let inner := py_mul (indentSpace f) (indentLevel f + 1) in
  exists g, run path_exists [CStartLookup a; CStartLookup b; CEndLookup; CEndLookup] f = Ok g
    /\ lines g = app (lines f) [prefix f ++ "lookup " ++ a ++ " {"; inner ++ "lookup " ++ b ++ " {";
                                inner ++ "} " ++ b ++ ";"; prefix f ++ "} None;"]
    /\ currentLookup g = None /\ indentLevel g = Z.max (indentLevel f) 0.
Proof.
  intros inner; eexists; split; [reflexivity|].
  simpl; unfold prefix; simpl.
  assert (E1 : py_mul (indentSpace f) (Z.max (indentLevel f + 1 + 1 - 1) 0) = inner)
    by (unfold inner, py_mul; f_equal; lia).
  assert (E2 : py_mul (indentSpace f) (Z.max (Z.max (indentLevel f + 1 + 1 - 1) 0 - 1) 0)
               = py_mul (indentSpace f) (indentLevel f)) by (unfold py_mul; f_equal; lia).
  rewrite E1, E2, <- !app_assoc; split; [reflexivity | split; [reflexivity | lia]].
Qed.

(** [ligatureFlagComponent] writes ["ligComponent"] one level out and then
    re-indents; at level 0 or below the dedent is clamped, so the call leaves
    the formatter at level 1: the level afterwards is [max(level, 1)]. *)
Theorem ligatureFlagComponent_effect (f : FeatureFormatter) :
  indentLevel (ligatureFlagComponent f) = Z.max (indentLevel f) 1
  /\ lines (ligatureFlagComponent f)
     = app (lines f) [py_mul (indentSpace f) (indentLevel f - 1) ++ "ligComponent"].
Proof.
  split; [simpl; lia|].
  change (lines (ligatureFlagComponent f))
    with (app (lines f) [py_mul (indentSpace f) (Z.max (indentLevel f - 1) 0) ++ "ligComponent"]).
  rewrite py_mul_clamp; reflexivity.
Qed.

(** The feature list is a log of the [startFeature] calls: after any run of
    calls that does not raise, [featureNames] is the old list followed by the
    names of the features the run opened, in order ([endFeature] never
    removes one). *)
Theorem run_featureNames (path_exists : string -> bool) (cs : list call) (f g : FeatureFormatter) :
  run path_exists cs f = Ok g -> featureNames g = app (featureNames f) (started_features cs).
Proof. intros H; apply (run_logs path_exists cs f g H). Qed.

Lemma run_featureNames_witness :
  exists g, run (fun _ => false) [CStartFeature "liga"; CAddLine ["sub a by b;"]; CEndFeature;
                                  CStartFeature "kern"; CEndFeature] (init_default "/tmp") = Ok g
    /\ featureNames g = ["liga"; "kern"].
Proof.
  eexists; split; [reflexivity|].
  exact (run_featureNames (fun _ => false) [CStartFeature "liga"; CAddLine ["sub a by b;"];
           CEndFeature; CStartFeature "kern"; CEndFeature] (init_default "/tmp") _ eq_refl).
Defined.

(** No call deletes or rewrites output except the last line: after any run
    of calls that does not raise, all lines but the last one of the old
    buffer are still at the start of the new buffer, and the buffer is never
    shorter.  Only [addLastLine] and [endMarks] rewrite a line: a run of the
    other calls keeps the whole old buffer as a prefix. *)
Theorem run_lines_append_only (path_exists : string -> bool) (cs : list call) (f g : FeatureFormatter) :
  run path_exists cs f = Ok g ->
  (exists s, lines g = app (removelast (lines f)) s)
  /\ (List.length (lines f) <= List.length (lines g))%nat
  /\ (Forall (fun c => edits_last c = false) cs -> exists s, lines g = app (lines f) s).
Proof.
  intros H; destruct (run_logs path_exists cs f g H) as [_ [_ [H1 H2]]].
  split; [exact H1|]. split; [exact H2|].
  intros Hc; exact (run_appends path_exists cs Hc f g H).
Qed.

Lemma run_lines_append_only_witness :
  (exists g, run (fun _ => false) [CAddLastLine ";"; CAddLine ["x"]]
               (addLine ["sub a by b"] (init_default "/tmp")) = Ok g
     /\ lines g = ["    sub a by b;"; "    x"]
     /\ (exists s, lines g = app (removelast ["    sub a by b"]) s)
     /\ (1 <= List.length (lines g))%nat)
  /\ (exists g, run (fun _ => false) [CAddGroup ["a"; "b"] (Some "G") 50 false true false;
                                      CLastLineIsComment; CTitle ["x"]]
                  (addLine ["sub a by b"] (init_default "/tmp")) = Ok g
     /\ exists s, lines g = app ["    sub a by b"] s).
Proof.
  split.
  - eexists; split; [reflexivity|]; split; [reflexivity|].
    destruct (run_lines_append_only (fun _ => false) [CAddLastLine ";"; CAddLine ["x"]]
                (addLine ["sub a by b"] (init_default "/tmp")) _ eq_refl) as [H1 [H2 _]].
    split; [exact H1 | exact H2].
  - eexists; split; [reflexivity|].
    exact (proj2 (proj2 (run_lines_append_only (fun _ => false)
             [CAddGroup ["a"; "b"] (Some "G") 50 false true false; CLastLineIsComment; CTitle ["x"]]
             (addLine ["sub a by b"] (init_default "/tmp")) _ eq_refl))
             ltac:(repeat constructor)).
Defined.

(** The structure outline is append-only: after any run of calls that does
    not raise, the old outline is a prefix of the new one. *)
Theorem run_structure_append_only (path_exists : string -> bool) (cs : list call)
    (f g : FeatureFormatter) :
  run path_exists cs f = Ok g -> exists s, structure g = app (structure f) s.
Proof. intros H; apply (run_logs path_exists cs f g H). Qed.

Lemma run_structure_append_only_witness :
  exists g, run (fun _ => false) [CStartFeature "liga"; CTitle ["ligatures"]; CEndFeature]
              (init_default "/tmp") = Ok g
    /\ exists s, structure g = app [] s.
Proof.
  eexists; split; [reflexivity|].
  exact (run_structure_append_only (fun _ => false) [CStartFeature "liga"; CTitle ["ligatures"];
           CEndFeature] (init_default "/tmp") _ eq_refl).
Defined.

Lemma addGroup_large_lines (glyphNames : list string) (groupName : option string)
    (lineLength : Z) (sort lineNumbers comment_ : bool) (f : FeatureFormatter) :
  (5 <= List.length glyphNames)%nat ->
  let es := group_loop lineLength (if sort then py_sort glyphNames else glyphNames) 0 0 [] in
  let inner := py_mul (indentSpace f) (indentLevel f + 1) in
  exists g, addGroup glyphNames groupName lineLength sort lineNumbers comment_ f = Ok g
    /\ lines g = app (lines f)
         (app [prefix f ++ (if py_truthy groupName
                            then "@" ++ strip_class_marker (py_str_opt groupName) ++ " = ["
                            else "[")]
           (app [inner ++ "# total " ++ py_str_int (Z.of_nat (List.length glyphNames)) ++ " names"]
             (app (map (fun e => inner ++ emit_text e) es)
                [prefix f ++ (if py_truthy groupName then "];" else "]")]))).
Proof.
  intros H5 es inner; unfold addGroup.
  replace (Nat.ltb (List.length glyphNames) 5) with false
    by (symmetry; apply Nat.ltb_ge; exact H5).
  destruct (py_truthy groupName); eexists; (split; [reflexivity|]);
    rewrite lines_addLine, lines_dedent, prefix_dedent;
    match goal with |- context [fold_left apply_emit ?e ?g] =>
      destruct (fold_apply_emit e g) as [Le [Pe [Ve Se]]] end;
    rewrite Le, Ve, Se, lines_comment_one; simpl;
    change (prefix (addLine ?a ?g)) with (prefix g);
    change (prefix (indent 1 (addLine ?a f))) with inner;
    replace (py_mul (indentSpace f) (Z.max (indentLevel f + 1 - 1) 0)) with (prefix f)
      by (unfold prefix, py_mul; f_equal; lia);
    rewrite <- !app_assoc; reflexivity.
Qed.

Lemma insert_sorted_perm (x : string) (l : list string) : Permutation (x :: l) (insert_sorted x l).
Proof.
  induction l as [|y l IH]; simpl; [reflexivity|].
  destruct (String.leb x y); [reflexivity|].
  eapply perm_trans; [apply perm_swap | apply perm_skip, IH].
Qed.

Lemma py_sort_perm (l : list string) : Permutation l (py_sort l).
Proof.
  induction l as [|x l IH]; simpl; [reflexivity|].
  eapply perm_trans; [apply perm_skip, IH | apply insert_sorted_perm].
Qed.

Lemma insert_sorted_hd (a x : string) (l : list string) :
  HdRel (fun u v => String.leb u v = true) a l -> String.leb a x = true ->
  HdRel (fun u v => String.leb u v = true) a (insert_sorted x l).
Proof.
  intros H Hx; destruct l as [|y l]; simpl; [constructor; exact Hx|].
  destruct (String.leb x y); constructor; [exact Hx | inversion H; assumption].
Qed.

Lemma insert_sorted_sorted (x : string) (l : list string) :
  Sorted (fun u v => String.leb u v = true) l ->
  Sorted (fun u v => String.leb u v = true) (insert_sorted x l).
Proof.
  induction 1 as [|y l Hl IH Hy]; simpl; [repeat constructor|].
  destruct (String.leb x y) eqn:E.
  - constructor; [constructor; assumption | constructor; exact E].
  - constructor; [exact IH|].
    apply insert_sorted_hd; [exact Hy|].
    destruct (String.leb_total x y) as [H|H]; [congruence | exact H].
Qed.

Lemma py_sort_sorted (l : list string) : Sorted (fun u v => String.leb u v = true) (py_sort l).
Proof.
  induction l as [|x l IH]; simpl; [constructor | apply insert_sorted_sorted, IH].
Qed.

(** A group of five names or more is written as an opening line
    (["@name = ["], or ["["] for an anonymous group) at the current
    indentation, a ["# total N names"] comment one level deeper, the wrapped
    name lines (and ["# line k"] comments) one level deeper, and a closing
    ["];"] (["]"] for an anonymous group) back at the current indentation.
    The name lines, read back in order, give every name exactly once, in the
    order given (sorted when [sort] is set). *)
Theorem addGroup_large_layout (glyphNames : list string) (groupName : option string)
    (lineLength : Z) (sort lineNumbers comment_ : bool) (f : FeatureFormatter) :
  (5 <= List.length glyphNames)%nat ->
  let inner := py_mul (indentSpace f) (indentLevel f + 1) in
  exists es g, addGroup glyphNames groupName lineLength sort lineNumbers comment_ f = Ok g
    /\ lines g = app (lines f)
         (app [prefix f ++ (if py_truthy groupName
                            then "@" ++ strip_class_marker (py_str_opt groupName) ++ " = ["
                            else "[")]
           (app [inner ++ "# total " ++ py_str_int (Z.of_nat (List.length glyphNames)) ++ " names"]
             (app (map (fun e => inner ++ emit_text e) es)
                [prefix f ++ (if py_truthy groupName then "];" else "]")])))
    /\ concat (chunks es) = (if sort then py_sort glyphNames else glyphNames).
Proof.
  intros H5 inner.
  destruct (addGroup_large_lines glyphNames groupName lineLength sort lineNumbers comment_ f H5)
    as [g [Hg Hl]].
  exists (group_loop lineLength (if sort then py_sort glyphNames else glyphNames) 0 0 []), g.
  split; [exact Hg|]; split; [exact Hl|].
  rewrite group_loop_concat; reflexivity.
Qed.

Lemma addGroup_large_layout_witness :
  (5 <= List.length ["e"; "d"; "c"; "b"; "a"])%nat
  /\ exists es g, addGroup ["e"; "d"; "c"; "b"; "a"] (Some "@LOW") 50 false true false
                   (init_default "/tmp") = Ok g
    /\ lines g = app ["    @LOW = ["; "        # total 5 names"]
                   (app (map (fun e => "        " ++ emit_text e) es) ["    ];"])
    /\ concat (chunks es) = ["e"; "d"; "c"; "b"; "a"].
Proof.
  split; [simpl; lia|].
  exact (addGroup_large_layout ["e"; "d"; "c"; "b"; "a"] (Some "@LOW") 50 false true false
           (init_default "/tmp") ltac:(simpl; lia)).
Defined.

(** With [sort] set, a group of five names or more writes its names sorted
    (by Python's string order): the name lines, read back in order, are in
    ascending order and hold exactly the given names, each as often as
    given. *)
Theorem addGroup_sorted (glyphNames : list string) (groupName : option string)
    (lineLength : Z) (lineNumbers comment_ : bool) (f : FeatureFormatter) :
  (5 <= List.length glyphNames)%nat ->
  let inner := py_mul (indentSpace f) (indentLevel f + 1) in
  exists es g, addGroup glyphNames groupName lineLength true lineNumbers comment_ f = Ok g
    /\ lines g = app (lines f)
         (app [prefix f ++ (if py_truthy groupName
                            then "@" ++ strip_class_marker (py_str_opt groupName) ++ " = ["
                            else "[")]
           (app [inner ++ "# total " ++ py_str_int (Z.of_nat (List.length glyphNames)) ++ " names"]
             (app (map (fun e => inner ++ emit_text e) es)
                [prefix f ++ (if py_truthy groupName then "];" else "]")])))
    /\ Sorted (fun u v => String.leb u v = true) (concat (chunks es))
    /\ Permutation glyphNames (concat (chunks es)).
Proof.
  intros H5 inner.
  destruct (addGroup_large_lines glyphNames groupName lineLength true lineNumbers comment_ f H5)
    as [g [Hg Hl]].
  exists (group_loop lineLength (py_sort glyphNames) 0 0 []), g.
  split; [exact Hg|]; split; [exact Hl|].
  rewrite group_loop_concat; simpl.
  split; [apply py_sort_sorted | apply py_sort_perm].
Qed.

Lemma addGroup_sorted_witness :
  (5 <= List.length ["e"; "d"; "c"; "b"; "a"])%nat
  /\ exists es g, addGroup ["e"; "d"; "c"; "b"; "a"] None 50 true true false
                   (init_default "/tmp") = Ok g
    /\ lines g = app ["    ["; "        # total 5 names"]
                   (app (map (fun e => "        " ++ emit_text e) es) ["    ]"])
    /\ Sorted (fun u v => String.leb u v = true) (concat (chunks es))
    /\ Permutation ["e"; "d"; "c"; "b"; "a"] (concat (chunks es)).
Proof.
  split; [simpl; lia|].
  exact (addGroup_sorted ["e"; "d"; "c"; "b"; "a"] None 50 true false
           (init_default "/tmp") ltac:(simpl; lia)).
Defined.

(** With fewer than five names, [addGroup] goes to [_addSmallGroup] before
    looking at any option: [lineLength], [sort], [lineNumbers] and [comment]
    change nothing (in particular the names are not sorted). *)
Theorem addGroup_small_ignores_options (glyphNames : list string) (groupName : option string)
    (lineLength1 lineLength2 : Z) (sort1 sort2 lineNumbers1 lineNumbers2 comment1 comment2 : bool)
    (f : FeatureFormatter) :
  (List.length glyphNames < 5)%nat ->
  addGroup glyphNames groupName lineLength1 sort1 lineNumbers1 comment1 f
  = addGroup glyphNames groupName lineLength2 sort2 lineNumbers2 comment2 f.
Proof.
  intros H; unfold addGroup.
  replace (Nat.ltb (List.length glyphNames) 5) with true
    by (symmetry; apply Nat.ltb_lt; exact H).
  reflexivity.
Qed.

Lemma addGroup_small_ignores_options_witness :
  (List.length ["b"; "a"] < 5)%nat
  /\ addGroup ["b"; "a"] (Some "G") 0 true false true (init_default "/tmp")
     = addGroup ["b"; "a"] (Some "G") 50 false true false (init_default "/tmp").
Proof.
  split; [simpl; lia|].
  apply addGroup_small_ignores_options; simpl; lia.
Defined.

(** A leading ['@'] on the group name is optional: ["@name"] and ["name"]
    give the same output, for small and large groups alike (for a non-empty
    name that does not itself start with ['@']). *)
Theorem addGroup_class_marker (glyphNames : list string) (n : string) (lineLength : Z)
    (sort lineNumbers comment_ : bool) (f : FeatureFormatter) :
  n <> "" -> (forall r, n <> String "@" r) ->
  addGroup glyphNames (Some ("@" ++ n)) lineLength sort lineNumbers comment_ f
  = addGroup glyphNames (Some n) lineLength sort lineNumbers comment_ f.
Proof.
  intros Hne Hat.
  assert (T1 : py_truthy (Some ("@" ++ n)) = true) by reflexivity.
  assert (T2 : py_truthy (Some n) = true).
  { unfold py_truthy; destruct (String.eqb n "") eqn:E; [|reflexivity].
    apply String.eqb_eq in E; contradiction. }
  assert (S1 : strip_class_marker (py_str_opt (Some ("@" ++ n))) = n) by reflexivity.
  assert (S2 : strip_class_marker (py_str_opt (Some n)) = n).
  { simpl; destruct n as [|c r]; [reflexivity|].
    destruct (Ascii.eqb c "@") eqn:E; [|simpl; rewrite E; reflexivity].
    apply Ascii.eqb_eq in E; subst c; exfalso; apply (Hat r); reflexivity. }
  unfold addGroup, _addSmallGroup; rewrite T1, T2, S1, S2; reflexivity.
Qed.

Lemma addGroup_class_marker_witness :
  "BASE" <> "" /\ (forall r, "BASE" <> String "@" r)
  /\ addGroup ["a"; "b"] (Some ("@" ++ "BASE")) 50 false true false (init_default "/tmp")
     = addGroup ["a"; "b"] (Some "BASE") 50 false true false (init_default "/tmp").
Proof.
  assert (H1 : "BASE" <> "") by discriminate.
  assert (H2 : forall r, "BASE" <> String "@" r) by discriminate.
  split; [exact H1|]; split; [exact H2|].
  exact (addGroup_class_marker ["a"; "b"] "BASE" 50 false true false (init_default "/tmp") H1 H2).
Defined.

Lemma digits_aux_length (fuel : nat) : forall (n : N) (acc : string) (k : nat),
  (n < 10 ^ N.of_nat (S k))%N ->
  (String.length (digits_aux fuel n acc) <= String.length acc + S k)%nat.
Proof.
  induction fuel as [|fu IH]; intros n acc k H; simpl; [lia|].
  destruct (N.eqb (N.div n 10) 0) eqn:E; [simpl; lia|].
  destruct k as [|k].
  - exfalso; apply N.eqb_neq in E; apply E, N.div_small.
    change (10 ^ N.of_nat 1)%N with 10%N in H; exact H.
  - specialize (IH (N.div n 10) (String (ascii_of_N (48 + N.modulo n 10)) acc) k).
    simpl String.length in IH.
    assert (Hd : (N.div n 10 < 10 ^ N.of_nat (S k))%N).
    { apply N.Div0.div_lt_upper_bound.
      replace (N.of_nat (S (S k))) with (N.succ (N.of_nat (S k))) in H by lia.
      rewrite N.pow_succ_r' in H; exact H. }
    specialize (IH Hd); lia.
Qed.

Lemma py_str_int_length (k : nat) (z : Z) :
  - 10 ^ Z.of_nat k < z < 10 ^ Z.of_nat (S k) -> (String.length (py_str_int z) <= S k)%nat.
Proof.
  intros [Hlo Hhi]; unfold py_str_int, digits.
  destruct (Z.ltb z 0) eqn:E.
  - apply Z.ltb_lt in E.
    destruct k as [|k]; [simpl in Hlo; lia|].
    change (String.length ("-" ++ ?s)) with (S (String.length s)).
    assert (Hb : (Z.abs_N z < 10 ^ N.of_nat (S k))%N).
    { apply N2Z.inj_lt; rewrite N2Z.inj_abs_N, N2Z.inj_pow, nat_N_Z.
      change (Z.of_N 10) with 10; lia. }
    pose proof (digits_aux_length (S (N.to_nat (N.size (Z.abs_N z)))) _ "" k Hb) as Hl.
    change (String.length "") with 0%nat in Hl; lia.
  - apply Z.ltb_ge in E.
    assert (Hb : (Z.to_N z < 10 ^ N.of_nat (S k))%N).
    { apply N2Z.inj_lt; rewrite Z2N.id, N2Z.inj_pow, nat_N_Z by lia.
      change (Z.of_N 10) with 10; lia. }
    pose proof (digits_aux_length (S (N.to_nat (N.size (Z.to_N z)))) _ "" k Hb) as Hl.
    change (String.length "") with 0%nat in Hl; lia.
Qed.

Lemma str_length_app (a b : string) :
  String.length (a ++ b) = (String.length a + String.length b)%nat.
Proof. induction a as [|c a IH]; simpl; [reflexivity | rewrite IH; reflexivity]. Qed.

Lemma length_repeat_str (n : nat) (s : string) :
  String.length (repeat_str n s) = (n * String.length s)%nat.
Proof.
  induction n as [|n IH]; simpl; [reflexivity|].
  rewrite str_length_app, IH; reflexivity.
Qed.

Lemma py_fmt_d_length (w : nat) (z : Z) :
  String.length (py_fmt_d w z) = Nat.max w (String.length (py_str_int z)).
Proof.
  unfold py_fmt_d, pad_left; rewrite str_length_app, length_repeat_str; simpl; lia.
Qed.

(** The coordinates of an anchor are right-aligned in fields of five
    characters ([%5d]): for coordinates from -9999 to 99999 the anchor text
    is always 20 characters long, so anchors line up in columns. *)
Theorem anchor_width (x y : Z) :
  -9999 <= x <= 99999 -> -9999 <= y <= 99999 ->
  String.length (anchor (Some (x, y))) = 20%nat.
Proof.
  intros Hx Hy; unfold anchor.
  rewrite !str_length_app, !py_fmt_d_length.
  assert (Lx : (String.length (py_str_int x) <= 5)%nat)
    by (apply (py_str_int_length 4); simpl; lia).
  assert (Ly : (String.length (py_str_int y) <= 5)%nat)
    by (apply (py_str_int_length 4); simpl; lia).
  cbn [String.length]; lia.
Qed.

Lemma anchor_width_witness :
  (-9999 <= -9999 <= 99999 /\ -9999 <= 99999 <= 99999)
  /\ anchor (Some (-9999, 99999)) = "<anchor -9999 99999>"
  /\ String.length (anchor (Some (-9999, 99999))) = 20%nat.
Proof.
  split; [lia|]; split; [reflexivity|].
  apply anchor_width; lia.
Defined.

(** [kern] writes the value twice in fields of four characters ([%4d]): for
    values from -999 to 9999 the line is ["pos a b <vvvv 0 vvvv 0>;"] at the
    current indentation, with the same four-character text [vvvv] twice. *)
Theorem kern_width (firstName secondName : string) (value : Z) (f : FeatureFormatter) :
  -999 <= value <= 9999 ->
  exists v, String.length v = 4%nat
    /\ lines (kern firstName secondName value f)
       = app (lines f) [prefix f ++ "pos " ++ firstName ++ " " ++ secondName ++ " <" ++ v
                        ++ " 0 " ++ v ++ " 0>;"].
Proof.
  intros Hv; exists (py_fmt_d 4 value); split; [|reflexivity].
  rewrite py_fmt_d_length.
  assert (L : (String.length (py_str_int value) <= 4)%nat)
    by (apply (py_str_int_length 3); simpl; lia).
  lia.
Qed.

Lemma kern_width_witness :
  -999 <= -50 <= 9999
  /\ exists v, String.length v = 4%nat
    /\ lines (kern "T" "o" (-50) (init_default "/tmp"))
       = app [] ["    pos T o <" ++ v ++ " 0 " ++ v ++ " 0>;"].
Proof.
  split; [lia|].
  exact (kern_width "T" "o" (-50) (init_default "/tmp") ltac:(lia)).
Defined.

Lemma str_app_nil_r (s : string) : s ++ "" = s.
Proof. induction s as [|c s IH]; simpl; [reflexivity | rewrite IH; reflexivity]. Qed.

Lemma split_nl_aux_plain (s : string) : forall cur,
  has_char "010" s = false -> split_nl_aux s cur = [cur ++ s].
Proof.
  induction s as [|c r IH]; intros cur H; cbn [split_nl_aux append].
  - rewrite str_app_nil_r; reflexivity.
  - cbn [has_char] in H; apply orb_false_elim in H as [Hc Hr].
    rewrite Ascii.eqb_sym, Hc, IH by exact Hr.
    rewrite str_app_assoc; reflexivity.
Qed.

Lemma split_nl_aux_line (s r : string) : forall cur,
  has_char "010" s = false ->
  split_nl_aux (s ++ String "010" r) cur = (cur ++ s) :: split_nl_aux r "".
Proof.
  induction s as [|c s IH]; intros cur H; cbn [split_nl_aux append].
  - rewrite str_app_nil_r; reflexivity.
  - cbn [has_char] in H; apply orb_false_elim in H as [Hc Hs].
    rewrite Ascii.eqb_sym, Hc, IH by exact Hs.
    rewrite str_app_assoc; reflexivity.
Qed.

Lemma split_nl_join (l : list string) :
  l <> [] -> Forall (fun s => has_char "010" s = false) l ->
  split_nl (py_join (String "010" "") l) = l.
Proof.
  intros Hne Hl; induction Hl as [|x l Hx Hl IH]; [contradiction|].
  destruct l as [|y l].
  - unfold split_nl, py_join; simpl; rewrite split_nl_aux_plain by exact Hx; reflexivity.
  - unfold split_nl, py_join in *.
    change (String.concat (String "010" "") (x :: y :: l))
      with (x ++ String "010" (String.concat (String "010" "") (y :: l))).
    rewrite split_nl_aux_line by exact Hx.
    rewrite IH by discriminate; reflexivity.
Qed.

(** [dump] round trip: when no entry contains a newline, splitting the text
    written by [save] on newlines gives back the header ["# file
    structure:"], one ["# " + indentSpace + entry] line per outline entry,
    the blank line and timestamp line when [includeTimeStamp] is set, and
    then exactly the line buffer. *)
Theorem dump_split (stamp : string) (f : FeatureFormatter) :
  has_char "010" (indentSpace f) = false -> has_char "010" stamp = false ->
  Forall (fun s => has_char "010" s = false) (structure f) ->
  Forall (fun s => has_char "010" s = false) (lines f) ->
  split_nl (dump stamp f)
  = app ["# file structure:"]
      (app (map (fun line => "# " ++ indentSpace f ++ line) (structure f))
        (app (if includeTimeStamp f then [""; stamp] else []) (lines f))).
Proof.
  intros Hsp Hst Hs Hl; unfold dump; apply split_nl_join; [discriminate|].
  apply Forall_app; split; [repeat constructor|].
  apply Forall_app; split.
  - apply Forall_map; eapply Forall_impl; [|exact Hs].
    intros a Ha; simpl; rewrite has_char_app, Hsp, Ha; reflexivity.
  - apply Forall_app; split; [|exact Hl].
    destruct (includeTimeStamp f); repeat constructor; exact Hst.
Qed.

Lemma dump_split_witness :
  has_char "010" (indentSpace (addLine ["a"] (init_default "/tmp"))) = false
  /\ has_char "010" "# timestamp Thu, 15 Oct 2026 10:00:00" = false
  /\ Forall (fun s => has_char "010" s = false) (structure (addLine ["a"] (init_default "/tmp")))
  /\ Forall (fun s => has_char "010" s = false) (lines (addLine ["a"] (init_default "/tmp")))
  /\ split_nl (dump "# timestamp Thu, 15 Oct 2026 10:00:00" (addLine ["a"] (init_default "/tmp")))
     = ["# file structure:"; ""; "# timestamp Thu, 15 Oct 2026 10:00:00"; "    a"].
Proof.
  assert (H1 : has_char "010" (indentSpace (addLine ["a"] (init_default "/tmp"))) = false)
    by reflexivity.
  assert (H2 : has_char "010" "# timestamp Thu, 15 Oct 2026 10:00:00" = false) by reflexivity.
  assert (H3 : Forall (fun s => has_char "010" s = false)
                 (structure (addLine ["a"] (init_default "/tmp")))) by constructor.
  assert (H4 : Forall (fun s => has_char "010" s = false)
                 (lines (addLine ["a"] (init_default "/tmp")))) by repeat constructor.
  split; [exact H1|]; split; [exact H2|]; split; [exact H3|]; split; [exact H4|].
  exact (dump_split "# timestamp Thu, 15 Oct 2026 10:00:00" (addLine ["a"] (init_default "/tmp"))
           H1 H2 H3 H4).
Defined.

Lemma config_trans (f g k : FeatureFormatter) :
  (dirName g = dirName f /\ featurePrefix g = featurePrefix f) ->
  (dirName k = dirName g /\ featurePrefix k = featurePrefix g) ->
  dirName k = dirName f /\ featurePrefix k = featurePrefix f.
Proof. intros [H1 H2] [H3 H4]; split; congruence. Qed.

Lemma config_fold {A : Type} (h : FeatureFormatter -> A -> FeatureFormatter) :
  (forall f a, dirName (h f a) = dirName f /\ featurePrefix (h f a) = featurePrefix f) ->
  forall l f, dirName (fold_left h l f) = dirName f
              /\ featurePrefix (fold_left h l f) = featurePrefix f.
Proof.
  intros Hh l.
  apply (fold_rel (fun f g => dirName g = dirName f /\ featurePrefix g = featurePrefix f));
    [intros; split; reflexivity | apply config_trans | exact Hh].
Qed.

Lemma config_comment (args : list string) (f : FeatureFormatter) :
  dirName (comment args f) = dirName f /\ featurePrefix (comment args f) = featurePrefix f.
Proof. apply config_fold; intros; split; reflexivity. Qed.

Lemma config_title (args : list string) (f : FeatureFormatter) :
  dirName (title args f) = dirName f /\ featurePrefix (title args f) = featurePrefix f.
Proof.
  unfold title; cbv zeta.
  eapply config_trans; [|apply config_comment].
  eapply config_trans; [|apply config_fold; intros; apply config_comment].
  eapply config_trans; [|apply config_comment].
  apply (config_trans f (addStructure ["'" ++ py_join " " args ++ "'"] f));
    [apply config_fold; intros; split; reflexivity | split; reflexivity].
Qed.

Lemma config_exec (path_exists : string -> bool) (c : call) (f g : FeatureFormatter) :
  exec path_exists c f = Ok g -> dirName g = dirName f /\ featurePrefix g = featurePrefix f.
Proof.
  destruct c; simpl; intros H.
  all: try (injection H as <-; split; reflexivity).
  - injection H as <-; apply config_comment.
  - injection H as <-; apply config_title.
  - unfold addLastLine in H; destruct (lastLineIsComment f) as [[|]|]; [| |discriminate].
    + injection H as <-; split; reflexivity.
    + destruct (py_last (lines f)); [|discriminate]; injection H as <-; split; reflexivity.
  - unfold addGroup in H; destruct (Nat.ltb _ _).
    + unfold _addSmallGroup, addLastLine, lastLineIsComment in H.
      destruct (py_truthy groupName); [|injection H as <-; split; reflexivity].
      rewrite lines_addLine, py_last_snoc in H.
      destruct (negb _); injection H as <-; split; reflexivity.
    + injection H as <-.
      assert (He : forall g' e, dirName (apply_emit g' e) = dirName g'
                                /\ featurePrefix (apply_emit g' e) = featurePrefix g')
        by (intros g' [l|k]; [split; reflexivity | apply config_comment]).
      destruct (py_truthy groupName); simpl;
        match goal with |- context [fold_left apply_emit ?es ?c] =>
          destruct (config_fold apply_emit He es c) as [D P] end;
        rewrite D, P; split; reflexivity.
  - unfold include in H; cbv zeta in H; destruct (has_char _ _); [discriminate H|].
    destruct (negb _); apply Ok_inj in H; subst g; [|split; reflexivity].
    eapply config_trans; [|apply config_comment]; split; reflexivity.
  - unfold positionBaseMark in H; simpl in H; discriminate H.
  - unfold endMarks, lastLineIsComment in H; simpl in H.
    destruct (py_last (lines f)); [|discriminate].
    destruct (negb _); injection H as <-; split; reflexivity.
  - apply Ok_inj in H; subst g; apply config_fold; intros; split; reflexivity.
  - destruct (lastLineIsComment f); [|discriminate H].
    apply Ok_inj in H; subst g; split; reflexivity.
  - destruct (addSmallGroup_effect glyphNames groupName f) as [g' [Hg' [[_ Hn] _]]].
    rewrite Hg' in H; apply Ok_inj in H; subst g.
    destruct Hn as (_&_&_&_&_&Hd); split; [exact Hd|].
    unfold _addSmallGroup in Hg'; destruct (py_truthy groupName); [|injection Hg' as <-; reflexivity].
    unfold addLastLine, lastLineIsComment in Hg'; rewrite lines_addLine, py_last_snoc in Hg'.
    destruct (negb _); injection Hg' as <-; reflexivity.
Qed.

Lemma config_run (path_exists : string -> bool) (cs : list call) :
  forall f g, run path_exists cs f = Ok g ->
  dirName g = dirName f /\ featurePrefix g = featurePrefix f.
Proof.
  induction cs as [|c cs IH]; intros f g H; simpl in H.
  - injection H as <-; split; reflexivity.
  - destruct (exec path_exists c f) as [h|e h] eqn:E; [|discriminate].
    eapply config_trans; [apply (config_exec _ _ _ _ E) | apply (IH _ _ H)].
Qed.

(** [save()] without a title, after any run of calls on a fresh formatter
    that did not raise, writes to ["<dirName>/feature_<featurePrefix>_<f1>_<f2>...fea"]
    where [f1], [f2], ... are the features the run opened, in order, and the
    text written is [dump()]. An empty title behaves the same as no title. *)
Theorem save_after_run (path_exists : string -> bool) (cs : list call)
    (dirName featurePrefix : string) (startIndent : Z) (includeTimeStamp : bool)
    (indentSpace : string) (verbose : bool) (stamp : string) (g : FeatureFormatter) :
  run path_exists cs (init dirName featurePrefix startIndent includeTimeStamp indentSpace verbose)
    = Ok g ->
  let expected := (os_path_join dirName ("feature_" ++ featurePrefix ++ "_"
                     ++ py_join "_" (started_features cs) ++ ".fea"), dump stamp g) in
  save stamp None g = expected /\ save stamp (Some "") g = expected.
Proof.
  intros H expected.
  destruct (config_run _ _ _ _ H) as [D P].
  destruct (run_logs _ _ _ _ H) as [N _].
  unfold save, expected; simpl py_truthy; cbv iota beta.
  rewrite D, P, N; split; reflexivity.
Qed.

Lemma save_after_run_witness :
  exists g, run (fun _ => false) [CStartFeature "liga"; CEndFeature; CStartFeature "calt";
                                  CEndFeature] (init_default "/fonts/feas") = Ok g
    /\ let expected := ("/fonts/feas/feature_AT_liga_calt.fea", dump "" g) in
       save "" None g = expected /\ save "" (Some "") g = expected.
Proof.
  eexists; split; [reflexivity|].
  exact (save_after_run (fun _ => false) [CStartFeature "liga"; CEndFeature;
           CStartFeature "calt"; CEndFeature] "/fonts/feas" "AT" 1 true "    " false ""
           _ eq_refl).
Defined.

Lemma comment_lines_prefix (args : list string) :
  forall f, lines (comment args f) = app (lines f) (map (fun a => prefix f ++ "# " ++ a) args)
            /\ prefix (comment args f) = prefix f
            /\ structure (comment args f) = structure f.
Proof.
  induction args as [|a args IH]; intros f; [simpl; rewrite app_nil_r; repeat split|].
  change (comment (a :: args) f) with (comment args (addLine ["# " ++ a] f)).
  destruct (IH (addLine ["# " ++ a] f)) as [H1 [H2 H3]].
  rewrite H1, H2, H3, lines_addLine, <- app_assoc; repeat split.
Qed.

(** [comment] with several arguments writes one ["# "] line per argument (where [addLine]
    joins its arguments on one line), at the current indentation, and leaves
    the structure outline alone; with no argument it writes nothing. *)
Theorem comment_one_line_per_arg (args : list string) (f : FeatureFormatter) :
  lines (comment args f) = app (lines f) (map (fun a => prefix f ++ "# " ++ a) args)
  /\ structure (comment args f) = structure f.
Proof.
  destruct (comment_lines_prefix args f) as [H1 [_ H3]]; split; [exact H1 | exact H3].
Qed.

(** [title] records ['words'] in the structure outline and writes two
    blank lines (holding just the indentation), a rule of 50 dashes, one
    comment line per argument (indented by one more [indentSpace] after the
    ["# "]), and a closing rule, all at the current indentation; its last
    line is therefore always a comment. *)
Theorem title_layout (args : list string) (f : FeatureFormatter) :
  let rule := prefix f ++ "# " ++ repeat_str 50 "-" in
  lines (title args f)
  = app (lines f) (app [prefix f; prefix f; rule]
      (app (map (fun a => prefix f ++ "# " ++ indentSpace f ++ a) args) [rule]))
  /\ structure (title args f) = app (structure f) [prefix f ++ "'" ++ py_join " " args ++ "'"].
Proof.
  intros rule; unfold title; cbv zeta.
  set (f0 := addStructure ["'" ++ py_join " " args ++ "'"] f).
  assert (L0 : lines f0 = lines f) by reflexivity.
  assert (P0 : prefix f0 = prefix f) by reflexivity.
  assert (S0 : structure f0 = app (structure f) [prefix f ++ "'" ++ py_join " " args ++ "'"])
    by reflexivity.
  assert (I0 : indentSpace f0 = indentSpace f) by reflexivity.
  set (f1 := comment [repeat_str 50 "-"] (addLine [] (addLine [] f0))).
  assert (L1 : lines f1 = app (lines f) [prefix f; prefix f; rule]).
  { unfold f1; rewrite lines_comment_one, !lines_addLine, L0.
    unfold rule; rewrite !prefix_addLine, P0, <- !app_assoc; simpl.
    rewrite !str_app_nil_r; reflexivity. }
  assert (P1 : prefix f1 = prefix f) by (unfold f1; simpl; exact P0).
  assert (I1 : indentSpace f1 = indentSpace f) by (unfold f1; simpl; exact I0).
  assert (S1 : structure f1 = structure f0) by reflexivity.
  assert (Hfold : forall l g, indentSpace g = indentSpace f ->
            lines (fold_left (fun f a => comment [indentSpace f ++ a] f) l g)
              = app (lines g) (map (fun a => prefix g ++ "# " ++ indentSpace f ++ a) l)
            /\ prefix (fold_left (fun f a => comment [indentSpace f ++ a] f) l g) = prefix g
            /\ indentSpace (fold_left (fun f a => comment [indentSpace f ++ a] f) l g) = indentSpace g
            /\ structure (fold_left (fun f a => comment [indentSpace f ++ a] f) l g) = structure g).
  { induction l as [|a l IH]; intros g Hg; cbn [fold_left map]; [rewrite app_nil_r; repeat split|].
    destruct (comment_lines_prefix [indentSpace g ++ a] g) as [C1 [C2 C3]].
    assert (C4 : indentSpace (comment [indentSpace g ++ a] g) = indentSpace g) by reflexivity.
    destruct (IH (comment [indentSpace g ++ a] g)) as [H1 [H2 [H3 H4]]]; [rewrite C4; exact Hg|].
    rewrite H1, H2, H3, H4, C1, C2, C3, C4, <- app_assoc, Hg; repeat split. }
  destruct (Hfold args f1 I1) as [L2 [P2 [_ S2]]].
  split.
  - rewrite lines_comment_one, L2, P2, L1, P1, <- !app_assoc; reflexivity.
  - rewrite structure_comment, S2, S1, S0; reflexivity.
Qed.
